(** * Travel planner (app.py): a shallow embedding and its properties

    The program is one Python module: four fetchers that call HTTP services
    ([get_weather_data], [get_city_coordinates], [search_hotels],
    [search_flights]), a table lookup ([get_airport_code]), a call to a
    text-generation model ([generate_trip_plan]) and the Streamlit page
    [main] that runs them in order.

    Python values are modelled as follows.
    - A [str] is the list of its Unicode code points ([list N]); program
      constants are written [str "..."].  [str.lower] and [str.upper] are
      given by their case tables on U+0000 to U+00FF and left open on other
      strings ([Casing]), so what is proved of a name holds whatever its
      characters.
    - A decoded JSON payload is a [json] tree; a JSON object is a finite map
      from keys to values (a Python [dict]), [None] is [JNull].
    - Code that can raise returns a [result]; code that talks to the outside
      world runs in the monad [M], which reads the services' answers from an
      environment and appends every call and every Streamlit output to a log. *)

From Stdlib Require Import String Ascii NArith ZArith List Bool Lia.
From stdpp Require Import base option list strings gmap.

Local Open Scope string_scope.
Local Open Scope list_scope.
Local Open Scope N_scope.

(** ** Strings *)

(** A program constant, given as an ASCII literal, as a list of code points. *)
Definition str (s : string) : list N :=
  map N_of_ascii (list_ascii_of_string s).

(** The case tables of [str.lower()] and [str.upper()] for the code points
    U+0000 to U+00FF (ASCII and Latin-1), one code point at a time.  They
    are applied to strings of these code points only: see [Casing]. *)
Definition lower_cp (c : N) : N :=
  if (0x41 <=? c) && (c <=? 0x5a) then c + 32
  else if (0xc0 <=? c) && (c <=? 0xde) && negb (c =? 0xd7) then c + 32
  else c.

Definition upper_cp (c : N) : list N :=
  if (0x61 <=? c) && (c <=? 0x7a) then [c - 32]
  else if c =? 0xb5 then [0x39c]
  else if c =? 0xdf then [0x53; 0x53]
  else if (0xe0 <=? c) && (c <=? 0xfe) && negb (c =? 0xf7) then [c - 32]
  else if c =? 0xff then [0x178]
  else [c].

Definition lower_table (s : list N) : list N := map lower_cp s.

Definition upper_table (s : list N) : list N := flat_map upper_cp s.

(** The code points U+0000 to U+007F, and U+0000 to U+00FF. *)
Definition is_ascii (s : list N) : Prop := Forall (fun c => c < 128) s.

Definition is_latin1 (s : list N) : Prop := Forall (fun c => c < 256) s.

(** [str.lower()] and [str.upper()].  On a string of U+0000 to U+00FF they
    are the tables above; on other strings they are Unicode's mappings,
    which the development leaves open: whatever is proved holds for every
    pair of functions that agrees with the tables. *)
Class Casing : Type := {
  lower : list N -> list N;
  upper : list N -> list N;
  lower_latin1 : forall s, is_latin1 s -> lower s = lower_table s;
  upper_latin1 : forall s, is_latin1 s -> upper s = upper_table s
}.

(** [t] is [s] with the case of some of its ASCII letters changed. *)
Definition same_letter (a b : N) : Prop :=
  a = b \/ (0x61 <= a <= 0x7a /\ b = a - 32) \/ (0x41 <= a <= 0x5a /\ b = a + 32).

Definition casing_of (s t : list N) : Prop := Forall2 same_letter s t.

Local Close Scope N_scope.

(** ** get_airport_code *)

(** [dict.get(key, default)] on a Python dict. *)
Definition dict_get {V : Type} (d : gmap (list N) V) (key : list N) (default : V) : V :=
  match d !! key with
  | Some v => v
  | None => default
  end.

Definition airport_codes : gmap (list N) (list N) :=
  list_to_map
    [ (str "tokyo", str "HND");
      (str "osaka", str "KIX");
      (str "kyoto", str "KIX");
      (str "delhi", str "DEL");
      (str "mumbai", str "BOM");
      (str "udaipur", str "UDR");
      (str "london", str "LHR");
      (str "paris", str "CDG");
      (str "new york", str "JFK");
      (str "singapore", str "SIN");
      (str "bangkok", str "BKK") ].

Definition get_airport_code `{Casing} (city : list N) : list N :=
  dict_get airport_codes (lower city) (upper (take 3 city)).

(** ** Decoded JSON payloads and Python values *)

#[local] Set Warnings "-register-all".

(** What [response.json()] returns.  [number] is the type of Python numbers
    ([int] and [float]); the program never computes with one. *)
Inductive json (number : Type) : Type :=
| JNull
| JBool (b : bool)
| JNum (n : number)
| JStr (s : list N)
| JArr (l : list (json number))
| JObj (d : gmap (list N) (json number)).

Arguments JNull {number}.
Arguments JBool {number} b.
Arguments JNum {number} n.
Arguments JStr {number} s.
Arguments JArr {number} l.
Arguments JObj {number} d.

(** The builtins the program applies to numbers: [bool(n)], [float(n)],
    [float(s)] for a string and [float(b)] for a boolean.  [None] is a raised
    [OverflowError] or [ValueError]. *)
Class Numeric (number : Type) : Type := {
  num_bool : number -> bool;
  num_float : number -> option number;
  str_float : list N -> option number;
  bool_float : bool -> number
}.

(** The exceptions that can arise; every one is a subclass of [Exception]. *)
Inductive exn : Type :=
| AttributeError
| TypeError
| KeyError
| IndexError
| ValueError
| OverflowError
| ConnectionError
| HTTPError
| JSONDecodeError
| InvokeError.

Inductive result (A : Type) : Type :=
| Ok (a : A)
| Raise (e : exn).

Arguments Ok {A} a.
Arguments Raise {A} e.

Definition rbind {A B : Type} (r : result A) (k : A -> result B) : result B :=
  match r with
  | Ok a => k a
  | Raise e => Raise e
  end.

#[global] Instance result_ret : MRet result := fun A a => Ok a.
#[global] Instance result_bind : MBind result := fun A B k r => rbind r k.

Section Values.
Context {number : Type} `{Numeric number}.

(** [v.get(key, default)]: only a dict has the method. *)
Definition py_get (v : json number) (key : list N) (default : json number)
  : result (json number) :=
  match v with
  | JObj d => Ok (dict_get d key default)
  | _ => Raise AttributeError
  end.

(** [v[key]] for a string key. *)
Definition py_item (v : json number) (key : list N) : result (json number) :=
  match v with
  | JObj d => match d !! key with Some x => Ok x | None => Raise KeyError end
  | _ => Raise TypeError
  end.

(** [v[0]]: the keys of a decoded JSON object are strings, so a dict raises. *)
Definition py_first (v : json number) : result (json number) :=
  match v with
  | JArr (x :: _) => Ok x
  | JArr [] => Raise IndexError
  | JStr (c :: _) => Ok (JStr [c])
  | JStr [] => Raise IndexError
  | JObj _ => Raise KeyError
  | _ => Raise TypeError
  end.

(** [v[:n]] followed by iteration: the items a [for] loop over the slice
    visits.  A list gives its first [n] items, a string its first [n]
    characters; nothing else can be sliced. *)
Definition py_slice_items (v : json number) (n : nat) : result (list (json number)) :=
  match v with
  | JArr l => Ok (take n l)
  | JStr s => Ok (map (fun c => JStr [c]) (take n s))
  | _ => Raise TypeError
  end.

(** Truth value of [v], as in [if v:]. *)
Definition py_bool (v : json number) : bool :=
  match v with
  | JNull => false
  | JBool b => b
  | JNum n => num_bool n
  | JStr s => negb (bool_decide (s = []))
  | JArr l => match l with [] => false | _ => true end
  | JObj d => negb (bool_decide (d = ∅))
  end.

(** [float(v)]. *)
Definition py_float (v : json number) : result number :=
  match v with
  | JNum n => match num_float n with Some x => Ok x | None => Raise OverflowError end
  | JStr s => match str_float s with Some x => Ok x | None => Raise ValueError end
  | JBool b => Ok (bool_float b)
  | _ => Raise TypeError
  end.

(** [v == s] and [v != s] for a string constant [s]. *)
Definition py_eq_str (v : json number) (s : list N) : bool :=
  match v with
  | JStr t => bool_decide (t = s)
  | _ => false
  end.

End Values.

(** ** The outside world *)

Section World.
Context {number : Type} `{Numeric number}.

(** The pieces of an f-string: literal text and interpolated values.
    Pictographs and the degree sign in the program's literals are left out. *)
Inductive frag : Type :=
| Lit (s : string)
| FStr (s : list N)
| FInt (z : Z)
| FNum (n : number)
| FVal (v : json number)
| FExn (e : exn).

(** A value of a request's [params], [headers] or [data]. *)
Inductive arg : Type :=
| AStr (s : list N)
| AKey (k : option (list N))
| ALit (s : string)
| AInt (z : Z)
| AText (f : list frag).

Inductive request : Type :=
| Get (url : string) (params : list (string * arg)) (headers : list (string * string))
| Post (url : string) (data : list (string * arg)).

(** What comes back: no answer at all ([requests] raises), or an answer with
    its status, [status_ok] when [raise_for_status] accepts it (it raises for
    4xx and 5xx), and its body, [None] when it is not JSON. *)
Inductive response : Type :=
| NoResponse
| Response (status_ok : bool) (body : option (json number)).

Inductive message : Type :=
| SystemMessage (content : list frag)
| HumanMessage (content : list frag).

Inductive heading : Type :=
| WeatherInformation
| YourTripPlan
| HotelOptions
| FlightOptions.

(** The Streamlit calls that put something on the page. *)
Inductive st_call : Type :=
| st_title (s : string)
| st_write (f : list frag)
| st_subheader (h : heading)
| st_warning (s : string)
| st_error (f : list frag).

Inductive event : Type :=
| EvRequest (r : request)
| EvInvoke (messages : list message)
| EvSt (c : st_call).

(** The process environment, the HTTP services and the hosted model. *)
Record env : Type := {
  getenv : string -> option (list N);
  send : request -> response;
  invoke : list message -> option (list N)
}.

(** A computation reads the environment, extends the log and returns or
    raises. *)
Definition M (A : Type) : Type := env -> list event -> result A * list event.

#[global] Instance M_ret : MRet M := fun A a _ log => (Ok a, log).

#[global] Instance M_bind : MBind M := fun A B k m e log =>
  match m e log with
  | (Ok a, log') => k a e log'
  | (Raise x, log') => (Raise x, log')
  end.

Definition lift {A : Type} (r : result A) : M A := fun _ log => (r, log).

Definition emit (ev : event) : M unit := fun _ log => (Ok tt, log ++ [ev]).

Definition st (c : st_call) : M unit := emit (EvSt c).

Definition os_getenv (name : string) : M (option (list N)) :=
  fun e log => (Ok (getenv e name), log).

(** [requests.get] and [requests.post]. *)
Definition requests_send (r : request) : M response := fun e log =>
  match send e r with
  | NoResponse => (Raise ConnectionError, log ++ [EvRequest r])
  | resp => (Ok resp, log ++ [EvRequest r])
  end.

Definition raise_for_status (r : response) : result unit :=
  match r with
  | Response true _ => Ok tt
  | _ => Raise HTTPError
  end.

Definition response_json (r : response) : result (json number) :=
  match r with
  | Response _ (Some v) => Ok v
  | _ => Raise JSONDecodeError
  end.

(** [llm.invoke(messages).content]. *)
Definition llm_invoke (messages : list message) : M (list N) := fun e log =>
  match invoke e messages with
  | Some content => (Ok content, log ++ [EvInvoke messages])
  | None => (Raise InvokeError, log ++ [EvInvoke messages])
  end.

(** [try: body except Exception as e: handler e]. *)
Definition try_except {A : Type} (body : M A) (handler : exn -> M A) : M A :=
  fun e log =>
    match body e log with
    | (Ok a, log') => (Ok a, log')
    | (Raise x, log') => handler x e log'
    end.

End World.

(** ** The fetchers *)

Section Program.
Context {number : Type} `{Numeric number} `{Casing}.

#[local] Abbreviation json := (json number).
#[local] Abbreviation M := (@M number).
#[local] Abbreviation request := (@request number).
#[local] Abbreviation response := (@response number).
#[local] Abbreviation event := (@event number).
#[local] Abbreviation env := (@env number).
#[local] Abbreviation frag := (@frag number).
#[local] Abbreviation message := (@message number).

(** The request [requests.get(base_url, params=params)] of the weather
    fetcher, for the key read from the process environment. *)
Definition weather_request (OPENWEATHER_API_KEY : option (list N)) (city : list N)
  : request :=
  let base_url := "http://api.openweathermap.org/data/2.5/weather" in
  let params :=
    [ ("q", AStr city); ("appid", AKey OPENWEATHER_API_KEY); ("units", ALit "metric") ] in
  Get base_url params [].

Definition get_weather_data (city : list N) : M json :=
  OPENWEATHER_API_KEY ← os_getenv "OPENWEATHER_API_KEY";
  try_except
    (response ← requests_send (weather_request OPENWEATHER_API_KEY city);
     lift (raise_for_status response);;
     lift (response_json response))
    (fun e =>
       st (st_error [Lit "Error fetching weather data: "; FExn e]);;
       mret (JObj ∅)).

Definition geocode_request (city : list N) : request :=
  let url := "https://nominatim.openstreetmap.org/search" in
  let params := [ ("q", AStr city); ("format", ALit "json"); ("limit", AInt 1) ] in
  let headers := [ ("User-Agent", "TravelPlanner/1.0") ] in
  Get url params headers.

(** The rest of the [try] block, from the decoded payload on. *)
Definition read_coordinates (data : json) : result (option number * option number) :=
  if py_bool data then
    first ← py_first data;
    lat ← py_item first (str "lat");
    lat ← py_float lat;
    first ← py_first data;
    lon ← py_item first (str "lon");
    lon ← py_float lon;
    mret (Some lat, Some lon)
  else mret (None, None).

Definition get_city_coordinates (city : list N) : M (option number * option number) :=
  try_except
    (response ← requests_send (geocode_request city);
     lift (raise_for_status response);;
     data ← lift (response_json response);
     lift (read_coordinates data))
    (fun e =>
       st (st_error [Lit "Error fetching city coordinates: "; FExn e]);;
       mret (None, None)).

(** *** search_hotels *)

Record address : Type := {
  street : json;
  addr_city : json;
  country : json
}.

Record coordinates : Type := {
  lat : json;
  lon : json
}.

Record hotel : Type := {
  name : json;
  hotel_address : address;
  stars : json;
  phone : json;
  website : json;
  hotel_coordinates : coordinates
}.

(** The text of the Overpass query, without its layout: the three filters
    (node, way, relation) interpolate the radius and the coordinates. *)
Definition quoted (s : string) : string :=
  String "034" (s +:+ String "034" EmptyString).

Definition hotel_filter (kind : string) (radius : Z) (lat lon : number) : list frag :=
  [ Lit (kind +:+ "[" +:+ quoted "tourism" +:+ "=" +:+ quoted "hotel" +:+ "](around:");
    FInt radius; Lit ","; FNum lat; Lit ","; FNum lon; Lit ");" ].

Definition overpass_query (radius : Z) (lat lon : number) : list frag :=
  [ Lit "[out:json][timeout:25];("]
  ++ hotel_filter "node" radius lat lon
  ++ hotel_filter "way" radius lat lon
  ++ hotel_filter "relation" radius lat lon
  ++ [ Lit ");out body;>;out skel qt;" ].

(** The dict built for one node element. *)
Definition make_hotel (city : list N) (element tags : json) : result hotel :=
  name ← py_get tags (str "name") (JStr (str "Unnamed Hotel"));
  street ← py_get tags (str "addr:street") (JStr (str "Street not available"));
  addr_city ← py_get tags (str "addr:city") (JStr city);
  country ← py_get tags (str "addr:country") (JStr (str "Country not available"));
  stars ← py_get tags (str "stars") (JStr (str "N/A"));
  phone ← py_get tags (str "phone") (JStr (str "Phone not available"));
  website ← py_get tags (str "website") (JStr (str "Website not available"));
  lat ← py_get element (str "lat") JNull;
  lon ← py_get element (str "lon") JNull;
  mret {| name := name;
          hotel_address := {| street := street; addr_city := addr_city; country := country |};
          stars := stars;
          phone := phone;
          website := website;
          hotel_coordinates := {| lat := lat; lon := lon |} |}.

(** The [for element in ...] loop: [elements] are the items still to visit,
    [hotels] the list built so far. *)
Fixpoint hotels_loop (city : list N) (elements : list json) (hotels : list hotel)
  : result (list hotel) :=
  match elements with
  | [] => Ok hotels
  | element :: rest =>
      ty ← py_get element (str "type") JNull;
      if py_eq_str ty (str "node") then
        tags ← py_get element (str "tags") (JObj ∅);
        hotel ← make_hotel city element tags;
        let hotels := hotels ++ [hotel] in
        if (3 <=? length hotels)%nat then Ok hotels
        else hotels_loop city rest hotels
      else hotels_loop city rest hotels
  end.

(** The rest of the [try] block, from the decoded payload on. *)
Definition read_hotels (city : list N) (data : json) : result (list hotel) :=
  elements ← py_get data (str "elements") (JArr []);
  elements ← py_slice_items elements 5;
  hotels_loop city elements [].

Definition overpass_request (lat lon : number) : request :=
  let radius := 5000%Z in
  let overpass_url := "https://overpass-api.de/api/interpreter" in
  Post overpass_url [ ("data", AText (overpass_query radius lat lon)) ].

Definition search_hotels (city : list N) : M (list hotel) :=
  '(lat, lon) ← get_city_coordinates city;
  match lat, lon with
  | Some lat, Some lon =>
      try_except
        (response ← requests_send (overpass_request lat lon);
         lift (raise_for_status response);;
         data ← lift (response_json response);
         lift (read_hotels city data))
        (fun e =>
           st (st_error [Lit "Error fetching hotel data: "; FExn e]);;
           mret [])
  | _, _ => mret []
  end.

(** *** search_flights *)

Record flight : Type := {
  airline : json;
  flight_number : json;
  departure : json;
  arrival : json
}.

(** The dict built for one entry of the data list. *)
Definition make_flight (entry : json) : result flight :=
  sub ← py_get entry (str "airline") (JObj ∅);
  airline ← py_get sub (str "name") (JStr (str "Unknown Airline"));
  sub ← py_get entry (str "flight") (JObj ∅);
  flight_number ← py_get sub (str "number") (JStr (str "Unknown"));
  sub ← py_get entry (str "departure") (JObj ∅);
  departure ← py_get sub (str "scheduled") (JStr (str "Unknown"));
  sub ← py_get entry (str "arrival") (JObj ∅);
  arrival ← py_get sub (str "scheduled") (JStr (str "Unknown"));
  mret {| airline := airline;
          flight_number := flight_number;
          departure := departure;
          arrival := arrival |}.

Fixpoint flights_loop (entries : list json) (flights : list flight)
  : result (list flight) :=
  match entries with
  | [] => Ok flights
  | entry :: rest =>
      f ← make_flight entry;
      flights_loop rest (flights ++ [f])
  end.

(** The rest of the [try] block, from the decoded payload on. *)
Definition read_flights (data : json) : result (list flight) :=
  entries ← py_get data (str "data") (JArr []);
  entries ← py_slice_items entries 3;
  flights_loop entries [].

Definition flights_request (AVIATIONSTACK_API_KEY : option (list N))
    (origin destination : list N) : request :=
  let url := "http://api.aviationstack.com/v1/flights" in
  let params :=
    [ ("access_key", AKey AVIATIONSTACK_API_KEY);
      ("dep_iata", AStr origin);
      ("arr_iata", AStr destination);
      ("limit", AInt 3) ] in
  Get url params [].

Definition search_flights (origin destination : list N) : M (list flight) :=
  AVIATIONSTACK_API_KEY ← os_getenv "AVIATIONSTACK_API_KEY";
  try_except
    (response ← requests_send (flights_request AVIATIONSTACK_API_KEY origin destination);
     lift (raise_for_status response);;
     data ← lift (response_json response);
     lift (read_flights data))
    (fun e =>
       st (st_error [Lit "Error fetching flight data: "; FExn e]);;
       mret []).

(** *** generate_trip_plan *)

Definition system_prompt : string :=
  "You are a knowledgeable travel advisor. Provide detailed information about the city, including:
    1. A paragraph about the city's cultural and historical significance
    2. Major attractions and must-visit places
    3. Local cuisine recommendations
    4. Best areas to stay
    5. Transportation tips
    6. Cultural etiquette and customs
    Format the response in a clear, organized manner.".

Definition trip_messages (city : list N) (days : Z) (month : list N) : list message :=
  [ SystemMessage [Lit system_prompt];
    HumanMessage [ Lit "Create a "; FInt days; Lit "-day trip plan for "; FStr city;
                   Lit " in "; FStr month; Lit "." ] ].

Definition generate_trip_plan (city : list N) (days : Z) (month : list N) : M (list N) :=
  let messages := trip_messages city days month in
  response ← llm_invoke messages;
  mret response.

(** ** The page *)

(** What the widgets return in one run of the script. *)
Record inputs : Type := {
  destination_city : list N;
  number_of_days : Z;
  month_of_travel : list N;
  departure_city : list N;
  plan_my_trip : bool
}.

Fixpoint for_each {A : Type} (body : A -> M unit) (l : list A) : M unit :=
  match l with
  | [] => mret tt
  | x :: rest => body x;; for_each body rest
  end.

Definition when (b : bool) (body : M unit) : M unit :=
  if b then body else mret tt.

Definition write_hotel (hotel : hotel) : M unit :=
  st (st_write [Lit "- "; FVal (name hotel)]);;
  let address := hotel_address hotel in
  st (st_write [ Lit "  Address: "; FVal (street address); Lit ", ";
                 FVal (addr_city address); Lit ", "; FVal (country address) ]);;
  when (negb (py_eq_str (stars hotel) (str "N/A")))
    (st (st_write [Lit "  Rating: "; FVal (stars hotel); Lit " stars"]));;
  when (negb (py_eq_str (phone hotel) (str "Phone not available")))
    (st (st_write [Lit "  Phone: "; FVal (phone hotel)]));;
  when (negb (py_eq_str (website hotel) (str "Website not available")))
    (st (st_write [Lit "  Website: "; FVal (website hotel)]));;
  let c := hotel_coordinates hotel in
  st (st_write [ Lit "  [View on Map](https://www.openstreetmap.org/?mlat="; FVal (lat c);
                 Lit "&mlon="; FVal (lon c); Lit "#map=16/"; FVal (lat c); Lit "/";
                 FVal (lon c); Lit ")" ]);;
  st (st_write [Lit "---"]).

Definition write_flight (flight : flight) : M unit :=
  st (st_write [ Lit "- "; FVal (airline flight); Lit " - Flight ";
                 FVal (flight_number flight) ]);;
  st (st_write [Lit "  Departure: "; FVal (departure flight)]);;
  st (st_write [Lit "  Arrival: "; FVal (arrival flight)]).

Definition hotel_warning : string :=
  "Could not fetch hotel data. Please check hotel booking websites directly.".

Definition flight_warning : string :=
  "Could not fetch real-time flight data. Please check airline websites directly.".

(** The weather part of the page, from the fetched [weather_data] on. *)
Definition weather_section (weather_data : json) : M unit :=
  when (py_bool weather_data)
    (st (st_subheader WeatherInformation);;
     temp ← lift (main ← py_get weather_data (str "main") (JObj ∅);
                  py_get main (str "temp") JNull);
     weather_desc ← lift (weather ← py_get weather_data (str "weather") (JArr [JObj ∅]);
                          first ← py_first weather;
                          py_get first (str "description") JNull);
     st (st_write [Lit "Current temperature: "; FVal temp; Lit "C"]);;
     st (st_write [Lit "Weather conditions: "; FVal weather_desc])).

Definition hotel_section (city : list N) : M unit :=
  st (st_subheader HotelOptions);;
  hotels ← search_hotels city;
  match hotels with
  | _ :: _ => for_each write_hotel hotels
  | [] => st (st_warning hotel_warning)
  end.

Definition flight_section (city origin_city : list N) : M unit :=
  st (st_subheader FlightOptions);;
  let origin_code := get_airport_code origin_city in
  let dest_code := get_airport_code city in
  flights ← search_flights origin_code dest_code;
  match flights with
  | _ :: _ => for_each write_flight flights
  | [] => st (st_warning flight_warning)
  end.

Definition main (i : inputs) : M unit :=
  st (st_title "AI Travel Planner");;
  st (st_write [Lit "Plan your perfect trip with AI-powered recommendations and real-time data!"]);;
  let city := destination_city i in
  let days := number_of_days i in
  let month := month_of_travel i in
  let origin_city := departure_city i in
  when (plan_my_trip i)
    (weather_data ← get_weather_data city;
     weather_section weather_data;;
     trip_plan ← generate_trip_plan city days month;
     st (st_subheader YourTripPlan);;
     st (st_write [FStr trip_plan]);;
     hotel_section city;;
     flight_section city origin_city).

End Program.

(** ** Vocabulary of the properties *)

Section Vocabulary.
Context {number : Type} `{Numeric number}.

#[local] Abbreviation json := (json number).
#[local] Abbreviation response := (@response number).
#[local] Abbreviation event := (@event number).

(** A call that gives the fetcher nothing to return: no answer, a status
    that [raise_for_status] rejects, a body that is not JSON, or a payload on
    which the rest of the [try] block, [read], raises. *)
Inductive failed {A : Type} (read : json -> result A) : response -> Prop :=
| network_error : failed read NoResponse
| bad_status body : failed read (Response false body)
| not_json status_ok : failed read (Response status_ok None)
| malformed status_ok data e :
    read data = Raise e -> failed read (Response status_ok (Some data)).

Definition is_object (v : json) : Prop :=
  match v with
  | JObj _ => True
  | _ => False
  end.

(** An element whose type discriminator is "node". *)
Definition is_node (element : json) : bool :=
  match element with
  | JObj d => py_eq_str (dict_get d (str "type") JNull) (str "node")
  | _ => false
  end.

(** [h] is the record the loop builds for [element]. *)
Definition built_from (city : list N) (element : json) (h : hotel) : Prop :=
  exists tags,
    py_get element (str "tags") (JObj ∅) = Ok tags /\
    make_hotel city element tags = Ok h.

(** The candidates as the specification words them: the first five
    point-type results of the response. *)
Definition candidates_spec (elements : list json) : list json :=
  take 5 (List.filter is_node elements).

(** The candidates the loop can build a record from: the point-type
    elements among the first five elements. *)
Definition candidates (elements : list json) : list json :=
  List.filter is_node (take 5 elements).

(** What the log shows on the page, in order. *)
Definition page (log : list event) : list st_call :=
  omap (fun ev => match ev with EvSt c => Some c | _ => None end) log.

(** The subheaders of the sections that follow the weather section. *)
Definition later_heading (ev : event) : Prop :=
  exists h, h <> WeatherInformation /\ ev = EvSt (st_subheader h).

(** The sub-object [key] of entry [d] is absent or is an object. *)
Definition absent_or_object (d : gmap (list N) json) (key : list N) : Prop :=
  d !! key = None \/ exists sub, d !! key = Some (JObj sub).

(** The field [inner] of the sub-object [outer] is absent from entry [d]. *)
Definition field_absent (d : gmap (list N) json) (outer inner : list N) : Prop :=
  d !! outer = None \/ exists sub, d !! outer = Some (JObj sub) /\ sub !! inner = None.

(** The field [inner] of the sub-object [outer] of entry [d] is [v]. *)
Definition field_present (d : gmap (list N) json) (outer inner : list N) (v : json) : Prop :=
  exists sub, d !! outer = Some (JObj sub) /\ sub !! inner = Some v.

(** What a fetcher returns for an answer of its service: the value [read]
    gets from the payload, and [empty] in every other case. *)
Definition answer {A : Type} (read : json -> result A) (empty : A)
    (resp : response) : A :=
  match resp with
  | Response true (Some data) =>
      match read data with
      | Ok a => a
      | Raise _ => empty
      end
  | _ => empty
  end.

(** The value [x] of a flight record comes from the field [inner] of the
    sub-object [outer] of entry [d], or is [default] when the field is
    absent. *)
Definition defaulted (d : gmap (list N) json) (outer inner default : list N)
    (x : json) : Prop :=
  (field_absent d outer inner -> x = JStr default) /\
  (forall v, field_present d outer inner v -> x = v).

(** Two worlds with the same configuration whose services give the same
    answers; the hosted model may differ. *)
Definition same_upstream (e1 e2 : @env number) : Prop :=
  (forall r, send e1 r = send e2 r) /\ (forall k, getenv e1 k = getenv e2 k).

(** The value [make_flight] gives a field. *)
Definition nested (d : gmap (list N) json) (outer inner default : list N) : json :=
  match d !! outer with
  | Some (JObj sub) => dict_get sub inner (JStr default)
  | _ => JStr default
  end.

(** The requests the log shows, in order. *)
Definition requests (log : list event) : list (@request number) :=
  omap (fun ev => match ev with EvRequest r => Some r | _ => None end) log.

(** A node or other element the loop can visit without raising: an object
    whose tags are absent or an object. *)
Definition hotel_element_ok (element : json) : Prop :=
  match element with
  | JObj d => absent_or_object d (str "tags")
  | _ => False
  end.

(** An entry the flight loop can read: an object whose four sub-objects are
    absent or objects. *)
Definition flight_entry_ok (entry : json) : Prop :=
  match entry with
  | JObj d =>
      absent_or_object d (str "airline") /\ absent_or_object d (str "flight") /\
      absent_or_object d (str "departure") /\ absent_or_object d (str "arrival")
  | _ => False
  end.

(** The spatial query the hotel fetcher sends after the geocoder's answer:
    none without coordinates. *)
Definition spatial_requests (e : @env number) (city : list N) : list (@request number) :=
  match answer read_coordinates (None, None) (send e (geocode_request city)) with
  | (Some lat, Some lon) => [overpass_request lat lon]
  | _ => []
  end.

(** A weather payload the weather section can show: a non-empty object
    whose "main" is absent or an object and whose "weather" is absent or a
    list that starts with an object. *)
Definition weather_well_formed (data : json) : Prop :=
  match data with
  | JObj d =>
      d <> ∅ /\ absent_or_object d (str "main") /\
      (d !! str "weather" = None \/
       exists first others, d !! str "weather" = Some (JArr (JObj first :: others)))
  | _ => False
  end.

(** The temperature and the description the weather section shows. *)
Definition weather_temp (d : gmap (list N) json) : json :=
  match d !! str "main" with
  | Some (JObj sub) => dict_get sub (str "temp") JNull
  | _ => JNull
  end.

Definition weather_description (d : gmap (list N) json) : json :=
  match d !! str "weather" with
  | Some (JArr (JObj first :: _)) => dict_get first (str "description") JNull
  | _ => JNull
  end.

End Vocabulary.

(** ** A concrete world, to run the program *)

(** The case tables alone.  The runs below are on names of U+0000 to
    U+00FF, where every [Casing] is these tables. *)
#[global] Instance table_casing : Casing := {|
  lower := lower_table;
  upper := upper_table;
  lower_latin1 := fun _ _ => eq_refl;
  upper_latin1 := fun _ _ => eq_refl
|}.

(** Integers as numbers; [float] of a string reads a non-empty run of
    decimal digits. *)
Definition digits (s : list N) : option Z :=
  match s with
  | [] => None
  | _ =>
      foldl (fun acc c =>
               match acc with
               | Some z =>
                   if ((48 <=? c) && (c <=? 57))%N then Some (10 * z + Z.of_N (c - 48))%Z
                   else None
               | None => None
               end) (Some 0%Z) s
  end.

#[global] Instance integer_numeric : Numeric Z := {|
  num_bool := fun z => negb (z =? 0)%Z;
  num_float := fun z => Some z;
  str_float := digits;
  bool_float := fun b => if b then 1%Z else 0%Z
|}.

(** A JSON object literal. *)
Definition obj (fields : list (string * json Z)) : json Z :=
  JObj (list_to_map (map (fun kv => (str (fst kv), snd kv)) fields)).

(** A world in which each service gives one fixed answer and no key is set. *)
Definition world (geocoder overpass flights weather : @response Z)
    (narrative : option (list N)) : @env Z :=
  {| getenv := fun _ => None;
     send := fun r =>
       match r with
       | Post _ _ => overpass
       | Get url _ _ =>
           if String.eqb url "https://nominatim.openstreetmap.org/search" then geocoder
           else if String.eqb url "http://api.aviationstack.com/v1/flights" then flights
           else weather
       end;
     invoke := fun _ => narrative |}.

(** An answer of the geocoder with one match. *)
Definition tokyo_found : @response Z :=
  Response true (Some (JArr [obj [("lat", JStr (str "35")); ("lon", JStr (str "139"))]])).

Definition node_element (hotel_name : string) : json Z :=
  obj [ ("type", JStr (str "node")); ("lat", JNum 35%Z); ("lon", JNum 139%Z);
        ("tags", obj [("name", JStr (str hotel_name))]) ].

Definition way_element : json Z :=
  obj [ ("type", JStr (str "way")); ("tags", obj [("name", JStr (str "Palace"))]) ].

Definition elements_payload (elements : list (json Z)) : json Z :=
  obj [("elements", JArr elements)].

Definition mixed_elements : list (json Z) :=
  [ way_element; node_element "Inn"; way_element; node_element "Lodge";
    node_element "Ryokan"; node_element "Sixth" ].

Definition far_node_elements : list (json Z) :=
  [ way_element; way_element; way_element; way_element; way_element; node_element "Inn" ].

Definition hotel_world (elements : list (json Z)) : @env Z :=
  world tokyo_found (Response true (Some (elements_payload elements)))
        NoResponse NoResponse None.

Definition no_match_world : @env Z :=
  world (Response true (Some (JArr []))) NoResponse NoResponse NoResponse None.

(** An entry of the flights payload with an airline name and nothing else. *)
Definition partial_entry : gmap (list N) (json Z) :=
  list_to_map
    [ (str "airline", obj [("name", JStr (str "ANA"))]);
      (str "flight", obj []) ].

(** The inputs of the end-to-end scenario, with the button pressed. *)
Definition tokyo_inputs : inputs :=
  {| destination_city := str "Tokyo";
     number_of_days := 3;
     month_of_travel := str "April";
     departure_city := str "London";
     plan_my_trip := true |}.

Definition fine_weather : @response Z :=
  Response true
    (Some (obj [ ("main", obj [("temp", JNum 18%Z)]);
                 ("weather", JArr [obj [("description", JStr (str "clear sky"))]]) ])).

Definition one_flight : @response Z :=
  Response true
    (Some (obj [("data", JArr [obj [("airline", obj [("name", JStr (str "ANA"))])]])])).

(** An answer of the flights service with five entries, the fourth one
    empty. *)
Definition five_flights : @response Z :=
  let entry (n : string) := obj [("flight", obj [("number", JStr (str n))])] in
  Response true
    (Some (obj [("data", JArr [entry "NH211"; entry "JL44"; entry "BA5"; obj []; entry "NH212"])])).

(** Every service answers and the model returns a narrative. *)
Definition full_world : @env Z :=
  world tokyo_found (Response true (Some (elements_payload mixed_elements)))
        one_flight fine_weather (Some (str "Day 1")).

(** The same services, with a model that fails. *)
Definition silent_model_world : @env Z :=
  world tokyo_found (Response true (Some (elements_payload mixed_elements)))
        one_flight fine_weather None.

(** The weather service answers with an empty object; the geocoder finds
    nothing and the flights service is unreachable. *)
Definition empty_weather_world : @env Z :=
  world (Response true (Some (JArr []))) NoResponse NoResponse
        (Response true (Some (obj []))) (Some (str "Day 1")).

(** A node with no tags and no coordinates. *)
Definition bare_node : gmap (list N) (json Z) :=
  list_to_map [(str "type", JStr (str "node"))].

(** A spatial payload as the map of its fields. *)
Definition elements_fields (elements : list (json Z)) : gmap (list N) (json Z) :=
  list_to_map [(str "elements", JArr elements)].

(** A flights payload as the map of its fields. *)
Definition data_fields (entries : list (json Z)) : gmap (list N) (json Z) :=
  list_to_map [(str "data", JArr entries)].

Definition numbered_flight (n : string) : json Z :=
  obj [("flight", obj [("number", JStr (str n))])].

(** An entry whose airline is null. *)
Definition null_airline : json Z := obj [("airline", JNull)].

(** The geocoder is unreachable. *)
Definition unreachable_geocoder_world : @env Z :=
  world NoResponse (Response true (Some (elements_payload mixed_elements)))
        NoResponse NoResponse None.

(** The first match of the geocoder has no latitude. *)
Definition no_lat_fields : gmap (list N) (json Z) :=
  list_to_map [(str "lon", JStr (str "139"))].

Definition no_lat_world : @env Z :=
  world (Response true (Some (JArr [JObj no_lat_fields]))) NoResponse NoResponse NoResponse None.

(** The fields of the first match of [tokyo_found]. *)
Definition tokyo_fields : gmap (list N) (json Z) :=
  list_to_map [(str "lat", JStr (str "35")); (str "lon", JStr (str "139"))].

(** The weather service answers with a list. *)
Definition list_weather_world : @env Z :=
  world tokyo_found NoResponse NoResponse (Response true (Some (JArr [JNum 1%Z])))
        (Some (str "Day 1")).

(** The weather service answers with an object whose "weather" list is
    empty. *)
Definition no_conditions_fields : gmap (list N) (json Z) :=
  list_to_map [(str "weather", JArr [])].

Definition no_conditions_world : @env Z :=
  world tokyo_found NoResponse NoResponse (Response true (Some (JObj no_conditions_fields)))
        (Some (str "Day 1")).

(** The fields of the payload of [fine_weather]. *)
Definition fine_weather_fields : gmap (list N) (json Z) :=
  list_to_map
    [ (str "main", obj [("temp", JNum 18%Z)]);
      (str "weather", JArr [obj [("description", JStr (str "clear sky"))]]) ].

(** The inputs of the scenario before the button is pressed. *)
Definition idle_inputs : inputs :=
  {| destination_city := str "Tokyo";
     number_of_days := 3;
     month_of_travel := str "April";
     departure_city := str "London";
     plan_my_trip := false |}.

(** * Properties *)

(** ** get_airport_code *)

Example get_airport_code_london : get_airport_code (str "London") = str "LHR".
Proof. vm_compute. reflexivity. Qed.

Example get_airport_code_kyoto : get_airport_code (str "KYOTO") = str "KIX".
Proof. vm_compute. reflexivity. Qed.

Lemma lower_cp_same_letter (a b : N) :
  (a < 128)%N -> same_letter a b -> lower_cp b = lower_cp a.
Proof.
  intros Ha [-> | [[Hr ->] | [Hr ->]]]; [reflexivity | |]; unfold lower_cp;
    repeat match goal with
           | |- context [(?x <=? ?y)%N] => destruct (N.leb_spec x y)
           | |- context [(?x =? ?y)%N] => destruct (N.eqb_spec x y)
           end; simpl; lia.
Qed.

Lemma lower_table_casing (s t : list N) :
  is_ascii s -> casing_of s t -> lower_table t = lower_table s.
Proof.
  intros Hs Hc. induction Hc as [| a b s t Hab _ IH]; [reflexivity |].
  apply Forall_cons in Hs as [Ha Hs]. simpl.
  rewrite (lower_cp_same_letter a b Ha Hab), (IH Hs). reflexivity.
Qed.

Lemma casing_ascii (s t : list N) : is_ascii s -> casing_of s t -> is_ascii t.
Proof.
  intros Hs Hc. induction Hc as [| a b s t Hab _ IH]; [constructor |].
  apply Forall_cons in Hs as [Ha Hs]. constructor; [| exact (IH Hs)].
  unfold same_letter in Hab. lia.
Qed.

Lemma is_ascii_latin1 (s : list N) : is_ascii s -> is_latin1 s.
Proof. intros Hs. eapply Forall_impl; [exact Hs |]. simpl. intros c Hc. lia. Qed.

Lemma is_ascii_str_tokyo : is_ascii (str "Tokyo").
Proof. unfold is_ascii, str; simpl. repeat (constructor; [lia |]). constructor. Qed.

Lemma is_ascii_str_lagos : is_ascii (str "Lagos").
Proof. unfold is_ascii, str; simpl. repeat (constructor; [lia |]). constructor. Qed.

Lemma upper_cp_ascii (c : N) : (c < 128)%N -> exists u, upper_cp c = [u].
Proof.
  intros Hc. unfold upper_cp.
  repeat match goal with
         | |- context [(?x <=? ?y)%N] => destruct (N.leb_spec x y)
         | |- context [(?x =? ?y)%N] => destruct (N.eqb_spec x y)
         end; simpl; try lia; eauto.
Qed.

Lemma upper_table_ascii_length (s : list N) :
  is_ascii s -> length (upper_table s) = length s.
Proof.
  induction 1 as [| c s Hc _ IH]; [reflexivity |].
  destruct (upper_cp_ascii c Hc) as [u Hu]. unfold upper_table in *. simpl.
  rewrite Hu. simpl. rewrite IH. reflexivity.
Qed.

Section AirportCode.
Context `{Casing}.

(** On ASCII strings the two functions are the tables. *)
Lemma lower_ascii (s : list N) : is_ascii s -> lower s = lower_table s.
Proof. intros Hs. apply lower_latin1, is_ascii_latin1, Hs. Qed.

Lemma upper_ascii (s : list N) : is_ascii s -> upper s = upper_table s.
Proof. intros Hs. apply upper_latin1, is_ascii_latin1, Hs. Qed.

Lemma lower_casing (s t : list N) :
  is_ascii s -> casing_of s t -> lower t = lower s.
Proof.
  intros Hs Hc.
  rewrite (lower_ascii s Hs), (lower_ascii t (casing_ascii s t Hs Hc)).
  apply lower_table_casing; assumption.
Qed.

Lemma upper_ascii_length (s : list N) : is_ascii s -> length (upper s) = length s.
Proof. intros Hs. rewrite (upper_ascii s Hs). apply upper_table_ascii_length, Hs. Qed.

Lemma get_airport_code_miss (city : list N) :
  airport_codes !! lower city = None ->
  get_airport_code city = upper (take 3 city).
Proof. intros Hm. unfold get_airport_code, dict_get. rewrite Hm. reflexivity. Qed.

(** On a name of U+0000 to U+00FF the result is the one the tables give,
    whatever the two functions do elsewhere: the runs below, which use the
    tables, are runs of the program. *)
Lemma get_airport_code_latin1 (city : list N) :
  is_latin1 city -> get_airport_code city = @get_airport_code table_casing city.
Proof.
  intros Hc. unfold get_airport_code.
  rewrite (lower_latin1 city Hc), (upper_latin1 (take 3 city) (Forall_take _ _ _ Hc)).
  reflexivity.
Qed.

(** C3: the lookup ignores case, so every casing of "Tokyo" gives "HND"; a
    name that is not in the table gives its first three characters
    uppercased, and "Lagos" is such a name and gives "LAG".  This holds
    whatever [str.lower] and [str.upper] do outside the tables, so for every
    name. *)
Theorem get_airport_code_lookup :
  (forall city, casing_of (str "Tokyo") city -> get_airport_code city = str "HND") /\
  (forall city, airport_codes !! lower city = None ->
                get_airport_code city = upper (take 3 city)) /\
  airport_codes !! lower (str "Lagos") = None /\
  get_airport_code (str "Lagos") = str "LAG".
Proof.
  assert (Hlagos : airport_codes !! lower (str "Lagos") = None).
  { rewrite (lower_ascii _ is_ascii_str_lagos). vm_compute. reflexivity. }
  split; [| split; [exact get_airport_code_miss | split; [exact Hlagos |]]].
  - intros city Hc. unfold get_airport_code, dict_get.
    rewrite (lower_casing _ _ is_ascii_str_tokyo Hc), (lower_ascii _ is_ascii_str_tokyo).
    replace (airport_codes !! lower_table (str "Tokyo")) with (Some (str "HND"))
      by (vm_compute; reflexivity).
    reflexivity.
  - rewrite (get_airport_code_miss _ Hlagos), upper_ascii.
    + vm_compute. reflexivity.
    + apply Forall_take, is_ascii_str_lagos.
Qed.

(** C10, as the code has it: a name of fewer than three characters that is
    not in the table gives the whole name uppercased, whatever its
    characters; when the name is ASCII the code has as many characters as
    the name, so fewer than three.  The empty name gives the empty code. *)
Theorem get_airport_code_short (city : list N) :
  length city < 3 -> airport_codes !! lower city = None ->
  get_airport_code city = upper city /\
  (is_ascii city -> length (get_airport_code city) = length city) /\
  get_airport_code [] = [].
Proof.
  intros Hl Hm. rewrite (get_airport_code_miss city Hm), take_ge by lia.
  split; [reflexivity |]. split; [apply upper_ascii_length |].
  unfold get_airport_code, dict_get.
  assert (Hnil : is_ascii []) by constructor.
  rewrite (lower_ascii [] Hnil). simpl. rewrite (upper_ascii [] Hnil). reflexivity.
Qed.

End AirportCode.

(** At "tOKyo", a casing of "Tokyo", and at "Lagos", which is not in the table. *)
Lemma get_airport_code_lookup_witness :
  get_airport_code (str "tOKyo") = str "HND" /\
  get_airport_code (str "Lagos") = upper (take 3 (str "Lagos")).
Proof.
  split.
  - apply (proj1 get_airport_code_lookup).
    unfold casing_of, str; simpl.
    repeat (constructor; [unfold same_letter; lia |]). constructor.
  - apply (proj1 (proj2 get_airport_code_lookup)). vm_compute. reflexivity.
Defined.

(** At the two-letter ASCII name "La", and at the name made of U+00DF and
    "a", which is not ASCII. *)
Lemma get_airport_code_short_witness :
  (get_airport_code (str "La") = upper (str "La") /\
   (is_ascii (str "La") -> length (get_airport_code (str "La")) = length (str "La")) /\
   get_airport_code [] = []) /\
  get_airport_code [0xdf; 0x61]%N = upper [0xdf; 0x61]%N.
Proof.
  split.
  - apply get_airport_code_short.
    + simpl. lia.
    + vm_compute. reflexivity.
  - apply (get_airport_code_short [0xdf; 0x61]%N).
    + simpl. lia.
    + vm_compute. reflexivity.
Defined.

(** C10 as stated fails on a name with a sharp s (U+00DF), which uppercases
    to two letters: the two-character name made of U+00DF and "a" is not in
    the table and gives the three-letter code "SSA". *)
Lemma get_airport_code_sharp_s :
  let city := [0xdf; 0x61]%N in
  city <> [] /\ length city < 3 /\ airport_codes !! lower city = None /\
  get_airport_code city = str "SSA" /\
  ~ length (get_airport_code city) < 3.
Proof.
  cbv zeta. split; [discriminate |]. split; [simpl; lia |].
  split; [vm_compute; reflexivity |]. split; [vm_compute; reflexivity |].
  vm_compute. lia.
Qed.

(** ** The fetchers: runs, and the hotel fetcher *)

#[local] Arguments Nat.leb : simpl never.

Section Fetchers.
Context {number : Type} `{Numeric number} `{Casing}.
#[local] Abbreviation json := (json number).
#[local] Abbreviation hotel := (@hotel number).
#[local] Abbreviation env := (@env number).
#[local] Abbreviation event := (@event number).
#[local] Abbreviation request := (@request number).
#[local] Abbreviation M := (@M number).

(** A bind that returns has run both of its parts. *)
Lemma rbind_ok {A B : Type} (r : result A) (k : A -> result B) (b : B) :
  (r ≫= k) = Ok b -> exists a, r = Ok a /\ k a = Ok b.
Proof. destruct r as [a | e]; [eauto | discriminate]. Qed.

Lemma py_get_object (v default : json) (key : list N) (x : json) :
  py_get v key default = Ok x ->
  exists d, v = JObj d /\ x = dict_get d key default.
Proof. destruct v; try discriminate. intros [= <-]. eauto. Qed.

Lemma is_node_type (element ty : json) :
  py_get element (str "type") JNull = Ok ty ->
  is_node element = py_eq_str ty (str "node").
Proof. intros (d & -> & ->)%py_get_object. reflexivity. Qed.

(** The loop returns as soon as the list has three records. *)
Lemma hotels_loop_length (city : list N) (elements : list json) :
  forall hotels hs,
    hotels_loop city elements hotels = Ok hs ->
    length hotels < 3 -> length hs <= 3.
Proof.
  induction elements as [| element rest IH]; intros hotels hs Hrun Hlen; simpl in Hrun.
  - injection Hrun as <-. lia.
  - apply rbind_ok in Hrun as (ty & _ & Hrun).
    destruct (py_eq_str ty (str "node")); [| eauto].
    apply rbind_ok in Hrun as (tags & _ & Hrun).
    apply rbind_ok in Hrun as (h & _ & Hrun).
    destruct (3 <=? length (hotels ++ [h]))%nat eqn:Hfull.
    + injection Hrun as <-. rewrite length_app. simpl. lia.
    + apply Nat.leb_gt in Hfull. eauto.
Qed.

(** Every record the loop adds is built for a node element it visited. *)
Lemma hotels_loop_nodes (city : list N) (elements : list json) :
  forall hotels hs,
    hotels_loop city elements hotels = Ok hs ->
    forall h, h ∈ hs ->
      h ∈ hotels \/
      exists element, element ∈ elements /\ is_node element = true /\ built_from city element h.
Proof.
  induction elements as [| element rest IH]; intros hotels hs Hrun h Hin; simpl in Hrun.
  - injection Hrun as <-. auto.
  - apply rbind_ok in Hrun as (ty & Hty & Hrun).
    destruct (py_eq_str ty (str "node")) eqn:Hnode.
    + apply rbind_ok in Hrun as (tags & Htags & Hrun).
      apply rbind_ok in Hrun as (h' & Hh' & Hrun).
      assert (Hnew : h ∈ hotels ++ [h'] ->
                     h ∈ hotels \/
                     exists e, e ∈ element :: rest /\ is_node e = true /\ built_from city e h).
      { intros [Hold | ->%list_elem_of_singleton]%elem_of_app; [auto |].
        right. exists element. split; [left |]. split.
        - rewrite (is_node_type _ _ Hty). exact Hnode.
        - exists tags. auto. }
      destruct (3 <=? length (hotels ++ [h']))%nat.
      * injection Hrun as <-. auto.
      * destruct (IH _ _ Hrun h Hin) as [Hold | (e & He & Hn & Hb)]; [auto |].
        right. exists e. split; [right; exact He | auto].
    + destruct (IH _ _ Hrun h Hin) as [Hold | (e & He & Hn & Hb)]; [auto |].
      right. exists e. split; [right; exact He | auto].
Qed.

(** Objects of another type are passed over. *)
Lemma hotels_loop_filter (city : list N) (elements : list json) :
  Forall is_object elements ->
  forall hotels,
    hotels_loop city elements hotels = hotels_loop city (List.filter is_node elements) hotels.
Proof.
  induction 1 as [| element rest Hobj _ IH]; intros hotels; [reflexivity |].
  destruct element as [| | | | | d]; try contradiction. simpl.
  destruct (py_eq_str (dict_get d (str "type") JNull) (str "node")) eqn:Hnode; simpl.
  - rewrite Hnode.
    destruct (make_hotel city (JObj d) (dict_get d (str "tags") (JObj ∅))) as [h | e]; simpl;
      [| reflexivity].
    destruct (3 <=? length (hotels ++ [h]))%nat; [reflexivity | apply IH].
  - apply IH.
Qed.

(** Once three records are built, what follows is not visited. *)
Lemma hotels_loop_stop (city : list N) (pre post : list json) :
  forall hotels hs,
    hotels_loop city pre hotels = Ok hs ->
    length hotels < 3 -> length hs = 3 ->
    hotels_loop city (pre ++ post) hotels = Ok hs.
Proof.
  induction pre as [| element rest IH]; intros hotels hs Hrun Hlen Hfull; simpl in Hrun.
  - injection Hrun as <-. lia.
  - simpl. destruct (py_get element (str "type") JNull) as [ty | e]; [| discriminate].
    simpl in *. destruct (py_eq_str ty (str "node")); [| eauto].
    destruct (py_get element (str "tags") (JObj ∅)) as [tags | e]; [| discriminate].
    simpl in *. destruct (make_hotel city element tags) as [h | e]; [| discriminate].
    simpl in *. destruct (3 <=? length (hotels ++ [h]))%nat eqn:Hcmp; [exact Hrun |].
    apply Nat.leb_gt in Hcmp. eauto.
Qed.

(** Running a bind, after a part that returns and after a part that raises. *)
Lemma mbind_run {A B : Type} (m : M A) (k : A -> M B) (e : env)
    (log log1 : list event) (a : A) :
  m e log = (Ok a, log1) -> (m ≫= k) e log = k a e log1.
Proof. unfold mbind, M_bind. intros ->. reflexivity. Qed.

Lemma mbind_raise {A B : Type} (m : M A) (k : A -> M B) (e : env)
    (log log1 : list event) (x : exn) :
  m e log = (Raise x, log1) -> (m ≫= k) e log = (Raise x, log1).
Proof. unfold mbind, M_bind. intros ->. reflexivity. Qed.

(** The shape the fetchers share: send, check the status, decode, read;
    on any exception show [msg] with the exception and return [empty]. *)
Lemma fetch_run {A : Type} (r : request) (read : json -> result A)
    (msg : string) (empty : A) (e : env) (log : list event) :
  let m : M A :=
    try_except
      (response ← requests_send r;
       lift (raise_for_status response);;
       data ← lift (response_json response);
       lift (read data))
      (fun x => st (st_error [Lit msg; FExn x]);; mret empty) in
  (exists data a,
      send e r = Response true (Some data) /\ read data = Ok a /\
      m e log = (Ok a, log ++ [EvRequest r])) \/
  (exists x,
      failed read (send e r) /\
      m e log = (Ok empty, (log ++ [EvRequest r]) ++ [EvSt (st_error [Lit msg; FExn x])])).
Proof.
  intros m. unfold m, try_except, requests_send, st, emit, lift.
  unfold mbind, mret, M_bind, M_ret.
  destruct (send e r) as [| [] [data |]] eqn:Hs; simpl.
  - right. eexists. split; [constructor | reflexivity].
  - destruct (read data) as [a | x] eqn:Hr.
    + left. exists data, a. auto.
    + right. exists x. split; [econstructor; eassumption | reflexivity].
  - right. eexists. split; [constructor | reflexivity].
  - right. eexists. split; [constructor | reflexivity].
  - right. eexists. split; [constructor | reflexivity].
Qed.

Lemma get_city_coordinates_run (e : env) (city : list N) (log : list event) :
  let r := geocode_request city in
  (exists data c,
      send e r = Response true (Some data) /\ read_coordinates data = Ok c /\
      get_city_coordinates city e log = (Ok c, log ++ [EvRequest r])) \/
  (exists x,
      failed read_coordinates (send e r) /\
      get_city_coordinates city e log =
        (Ok (None, None),
         (log ++ [EvRequest r])
           ++ [EvSt (st_error [Lit "Error fetching city coordinates: "; FExn x])])).
Proof. apply fetch_run. Qed.

Lemma search_flights_run (e : env) (origin destination : list N) (log : list event) :
  let r := flights_request (getenv e "AVIATIONSTACK_API_KEY") origin destination in
  (exists data flights,
      send e r = Response true (Some data) /\ read_flights data = Ok flights /\
      search_flights origin destination e log = (Ok flights, log ++ [EvRequest r])) \/
  (exists x,
      failed read_flights (send e r) /\
      search_flights origin destination e log =
        (Ok [],
         (log ++ [EvRequest r])
           ++ [EvSt (st_error [Lit "Error fetching flight data: "; FExn x])])).
Proof. apply (fetch_run _ read_flights). Qed.

(** With coordinates, the hotel fetcher is the shared shape on the spatial
    query. *)
Lemma search_hotels_found (e : env) (city : list N) (log log1 : list event)
    (lat lon : number) :
  get_city_coordinates city e log = (Ok (Some lat, Some lon), log1) ->
  let r := overpass_request lat lon in
  (exists data hotels,
      send e r = Response true (Some data) /\ read_hotels city data = Ok hotels /\
      search_hotels city e log = (Ok hotels, log1 ++ [EvRequest r])) \/
  (exists x,
      failed (read_hotels city) (send e r) /\
      search_hotels city e log =
        (Ok [],
         (log1 ++ [EvRequest r])
           ++ [EvSt (st_error [Lit "Error fetching hotel data: "; FExn x])])).
Proof.
  intros Hgeo r. unfold search_hotels. rewrite (mbind_run _ _ _ _ _ _ Hgeo).
  exact (fetch_run (overpass_request lat lon) (read_hotels city) _ [] e log1).
Qed.

Lemma search_hotels_not_found (e : env) (city : list N) (log log1 : list event)
    (lat lon : option number) :
  get_city_coordinates city e log = (Ok (lat, lon), log1) ->
  lat = None \/ lon = None ->
  search_hotels city e log = (Ok [], log1).
Proof.
  intros Hgeo Hnone. unfold search_hotels. rewrite (mbind_run _ _ _ _ _ _ Hgeo).
  destruct lat, lon; destruct Hnone; try discriminate; reflexivity.
Qed.

Lemma read_coordinates_both (data : json) (lat lon : option number) :
  read_coordinates data = Ok (lat, lon) ->
  (lat = None /\ lon = None) \/ (exists x y, lat = Some x /\ lon = Some y).
Proof.
  unfold read_coordinates. destruct (py_bool data).
  - intros Hr. right.
    repeat (apply rbind_ok in Hr as (? & _ & Hr)). injection Hr as <- <-. eauto.
  - intros [= <- <-]. auto.
Qed.

Lemma get_city_coordinates_total (e : env) (city : list N) (log : list event) :
  exists lat lon extra,
    get_city_coordinates city e log =
      (Ok (lat, lon), log ++ EvRequest (geocode_request city) :: extra) /\
    (forall r, EvRequest r ∉ extra) /\
    ((lat = None /\ lon = None) \/ (exists x y, lat = Some x /\ lon = Some y)).
Proof.
  destruct (get_city_coordinates_run e city log)
    as [(data & [lat lon] & _ & Hread & Hrun) | (x & _ & Hrun)].
  - exists lat, lon, []. rewrite Hrun. split; [reflexivity |].
    split; [intros r Hin; inversion Hin | eapply read_coordinates_both, Hread].
  - eexists None, None, [_]. rewrite Hrun, <- app_assoc. split; [reflexivity |].
    split; [| auto].
    intros r [=]%list_elem_of_singleton.
Qed.


Lemma read_hotels_length (city : list N) (data : json) (hotels : list hotel) :
  read_hotels city data = Ok hotels -> length hotels <= 3.
Proof.
  unfold read_hotels. intros Hr.
  apply rbind_ok in Hr as (elements & _ & Hr).
  apply rbind_ok in Hr as (items & _ & Hr).
  apply (hotels_loop_length _ _ _ _ Hr). simpl. lia.
Qed.

Lemma read_hotels_nodes (city : list N) (data : json) (hotels : list hotel) :
  read_hotels city data = Ok hotels ->
  forall h, h ∈ hotels ->
    exists elements element,
      py_get data (str "elements") (JArr []) = Ok (JArr elements) /\
      element ∈ elements /\ is_node element = true /\ built_from city element h.
Proof.
  unfold read_hotels. intros Hr h Hin.
  apply rbind_ok in Hr as (elements & Hget & Hr).
  apply rbind_ok in Hr as (items & Hitems & Hr).
  destruct (hotels_loop_nodes _ _ _ _ Hr h Hin) as [Hnil | (element & He & Hn & Hb)];
    [inversion Hnil |].
  destruct elements as [| | | s | l |]; try discriminate; injection Hitems as <-.
  - apply list_elem_of_In, in_map_iff in He as (c & <- & _). discriminate.
  - exists l, element. split; [exact Hget |]. split; [| auto].
    eapply subseteq_take, He.
Qed.

(** C1: whatever the services answer, the hotel fetcher returns a list of at
    most three records, and every record in it is the one built for an
    element of the response whose type is "node"; elements of another type
    give no record. *)
Theorem search_hotels_at_most_three (e : env) (city : list N) (log : list event) :
  exists hotels log',
    search_hotels city e log = (Ok hotels, log') /\
    length hotels <= 3 /\
    forall h, h ∈ hotels ->
      exists lat lon data elements element,
        send e (overpass_request lat lon) = Response true (Some data) /\
        py_get data (str "elements") (JArr []) = Ok (JArr elements) /\
        element ∈ elements /\ is_node element = true /\ built_from city element h.
Proof.
  destruct (get_city_coordinates_total e city log)
    as (lat & lon & extra & Hgeo & _ & [[-> ->] | (x & y & -> & ->)]).
  - rewrite (search_hotels_not_found _ _ _ _ _ _ Hgeo) by auto.
    eexists [], _. split; [reflexivity |]. split; [simpl; lia |].
    intros h Hin. inversion Hin.
  - destruct (search_hotels_found _ _ _ _ _ _ Hgeo)
      as [(data & hotels & Hsend & Hread & ->) | (x0 & _ & ->)].
    + eexists hotels, _. split; [reflexivity |].
      split; [eapply read_hotels_length, Hread |].
      intros h Hin.
      destruct (read_hotels_nodes _ _ _ Hread h Hin) as (elements & element & Hall).
      exists x, y, data, elements, element. auto.
    + eexists [], _. split; [reflexivity |]. split; [simpl; lia |].
      intros h Hin. inversion Hin.
Qed.

(** The tags the loop reads for an element that has none or an object. *)
Lemma tags_get (d : gmap (list N) json) :
  absent_or_object d (str "tags") ->
  exists tags,
    py_get (JObj d) (str "tags") (JObj ∅) = Ok (JObj tags) /\
    forall key default,
      dict_get tags key (JStr default) = nested d (str "tags") key default.
Proof.
  unfold nested, py_get, dict_get. intros [Hd | (sub & Hd)]; rewrite Hd.
  - exists ∅. split; [reflexivity |]. intros key default. rewrite lookup_empty. reflexivity.
  - exists sub. split; reflexivity.
Qed.

Lemma make_hotel_ok (city : list N) (element : json) :
  hotel_element_ok element ->
  exists tags h,
    py_get element (str "tags") (JObj ∅) = Ok tags /\ make_hotel city element tags = Ok h.
Proof.
  destruct element as [| | | | | d]; try contradiction. intros Htags.
  destruct (tags_get d Htags) as (tags & Hget & _).
  exists (JObj tags). eexists. split; [exact Hget | reflexivity].
Qed.

Lemma hotels_loop_exact (city : list N) (elements : list json) :
  Forall hotel_element_ok elements ->
  forall hotels,
    length hotels < 3 ->
    exists new,
      hotels_loop city elements hotels = Ok (hotels ++ new) /\
      Forall2 (built_from city)
        (take (3 - length hotels) (List.filter is_node elements)) new.
Proof.
  induction 1 as [| element rest Hok _ IH]; intros hotels Hlen.
  - exists []. cbn [List.filter hotels_loop]. rewrite app_nil_r, take_nil.
    split; [reflexivity | constructor].
  - destruct (make_hotel_ok city element Hok) as (tags & h & Htags & Hh).
    destruct element as [| | | | | d]; try contradiction.
    cbn [hotels_loop List.filter is_node py_get]. cbn [mbind result_bind rbind].
    destruct (py_eq_str (dict_get d (str "type") JNull) (str "node")) eqn:Hnode.
    + cbn [py_get] in Htags. injection Htags as Htags. rewrite Htags, Hh.
      cbn [mbind result_bind rbind].
      assert (Hb : built_from city (JObj d) h).
      { exists tags. split; [cbn [py_get]; rewrite Htags; reflexivity | exact Hh]. }
      destruct (3 <=? length (hotels ++ [h]))%nat eqn:Hfull.
      * apply Nat.leb_le in Hfull. rewrite length_app in Hfull. simpl in Hfull.
        exists [h]. split; [reflexivity |].
        replace (3 - length hotels) with 1 by lia. simpl. rewrite take_0.
        repeat constructor. exact Hb.
      * apply Nat.leb_gt in Hfull.
        destruct (IH (hotels ++ [h]) Hfull) as (new & Hrun & Hall).
        exists (h :: new). rewrite Hrun, <- app_assoc. split; [reflexivity |].
        rewrite length_app in Hall, Hfull. simpl in Hall, Hfull.
        replace (3 - length hotels) with (S (3 - (length hotels + 1))) by lia.
        simpl. constructor; [exact Hb | exact Hall].
    + apply IH, Hlen.
Qed.

(** C2, as the code has it: the records are built from the node elements
    among the first five elements of the response.  Every record returned is
    the record of one of them; when the first five elements are objects the
    loop runs over exactly these candidates, in order; when moreover their
    tags are absent or objects, each of the first three candidates gives its
    record, in order, and these are the records returned; and the loop stops
    at the third record: what follows it is not visited. *)
Theorem search_hotels_candidates (city : list N) (d : gmap (list N) json)
    (elements : list json) :
  d !! str "elements" = Some (JArr elements) ->
  (forall hs h,
      read_hotels city (JObj d) = Ok hs -> h ∈ hs ->
      exists element, element ∈ candidates elements /\ built_from city element h) /\
  (Forall is_object (take 5 elements) ->
   read_hotels city (JObj d) = hotels_loop city (candidates elements) []) /\
  (Forall hotel_element_ok (take 5 elements) ->
   exists hotels,
     read_hotels city (JObj d) = Ok hotels /\
     Forall2 (built_from city) (take 3 (candidates elements)) hotels) /\
  forall (pre post : list json) (hs : list hotel),
    hotels_loop city pre [] = Ok hs -> length hs = 3 ->
    hotels_loop city (pre ++ post) [] = Ok hs.
Proof.
  intros Hd.
  assert (Hread : read_hotels city (JObj d) = hotels_loop city (take 5 elements) []).
  { unfold read_hotels, py_get, dict_get. rewrite Hd. reflexivity. }
  split; [| split; [| split]].
  - intros hs h Hrun Hin. rewrite Hread in Hrun.
    destruct (hotels_loop_nodes _ _ _ _ Hrun h Hin) as [Hnil | (element & He & Hn & Hb)];
      [inversion Hnil |].
    exists element. split; [| exact Hb].
    apply list_elem_of_In, filter_In. split; [apply list_elem_of_In, He | exact Hn].
  - intros Hobj. rewrite Hread. apply hotels_loop_filter, Hobj.
  - intros Hok. rewrite Hread.
    destruct (hotels_loop_exact city _ Hok []) as (new & Hrun & Hall); [simpl; lia |].
    exists new. split; [exact Hrun | exact Hall].
  - intros pre post hs Hrun Hfull.
    apply hotels_loop_stop; [exact Hrun | simpl; lia | exact Hfull].
Qed.

(** C4: when the geocoder yields no coordinates, the hotel fetcher returns
    the empty list at once, with the log the geocoder left: the one request
    sent is the geocoding request, so the spatial query was not issued. *)
Theorem search_hotels_no_coordinates (e : env) (city : list N)
    (log log1 : list event) (lat lon : option number) :
  get_city_coordinates city e log = (Ok (lat, lon), log1) ->
  lat = None \/ lon = None ->
  search_hotels city e log = (Ok [], log1) /\
  requests log1 = requests log ++ [geocode_request city].
Proof.
  intros Hgeo Hnone. split; [eapply search_hotels_not_found; eassumption |].
  unfold requests.
  destruct (get_city_coordinates_run e city log)
    as [(data & c & _ & _ & Hrun) | (x & _ & Hrun)];
    rewrite Hgeo in Hrun;
    apply (f_equal snd) in Hrun; simpl in Hrun; subst log1; rewrite !omap_app; simpl.
  - reflexivity.
  - rewrite app_nil_r. reflexivity.
Qed.

(** The geocoder yields no coordinates when its call fails and when the
    result set is empty. *)
Lemma get_city_coordinates_none (e : env) (city : list N) (log : list event) :
  failed read_coordinates (send e (geocode_request city)) \/
  send e (geocode_request city) = Response true (Some (JArr [])) ->
  exists log1, get_city_coordinates city e log = (Ok (None, None), log1).
Proof.
  intros Hc.
  destruct (get_city_coordinates_run e city log)
    as [(data & c & Hsend & Hread & ->) | (x & _ & ->)]; [| eauto].
  destruct Hc as [Hf | Hempty].
  - rewrite Hsend in Hf. inversion Hf; subst. congruence.
  - rewrite Hempty in Hsend. injection Hsend as <-.
    injection Hread as <-. eauto.
Qed.

End Fetchers.

(** In a world whose spatial query answers with two ways and four nodes. *)
Lemma search_hotels_at_most_three_witness :
  exists hotels log',
    search_hotels (str "Tokyo") (hotel_world mixed_elements) [] = (Ok hotels, log') /\
    length hotels <= 3 /\
    forall h, h ∈ hotels ->
      exists lat lon data elements element,
        send (hotel_world mixed_elements) (overpass_request lat lon)
          = Response true (Some data) /\
        py_get data (str "elements") (JArr []) = Ok (JArr elements) /\
        element ∈ elements /\ is_node element = true /\
        built_from (str "Tokyo") element h.
Proof. apply (search_hotels_at_most_three (hotel_world mixed_elements)). Defined.

(** There the three records are those of the first three nodes among the first
    five elements; the fourth node, in sixth place, gives none. *)
Example search_hotels_mixed :
  exists h1 h2 h3 log',
    search_hotels (str "Tokyo") (hotel_world mixed_elements) [] = (Ok [h1; h2; h3], log') /\
    name h1 = JStr (str "Inn") /\ name h2 = JStr (str "Lodge") /\
    name h3 = JStr (str "Ryokan") /\
    page log' = [].
Proof. vm_compute. do 4 eexists. repeat split. Qed.

(** C2 as stated fails when a node comes after five other elements: it is
    among the first five point-type results, a record can be built from it,
    and yet the fetcher returns no record. *)
Lemma search_hotels_far_node :
  candidates_spec far_node_elements = [node_element "Inn"] /\
  (exists h, hotels_loop (str "Tokyo") (candidates_spec far_node_elements) [] = Ok [h]) /\
  read_hotels (str "Tokyo") (elements_payload far_node_elements) = Ok [] /\
  fst (search_hotels (str "Tokyo") (hotel_world far_node_elements) []) = Ok [].
Proof.
  split; [vm_compute; reflexivity |]. split; [vm_compute; eexists; reflexivity |].
  split; vm_compute; reflexivity.
Qed.

(** At the payload with two ways and four nodes. *)
Lemma search_hotels_candidates_witness :
  read_hotels (str "Tokyo") (elements_payload mixed_elements)
    = hotels_loop (str "Tokyo") (candidates mixed_elements) [] /\
  exists hotels,
    read_hotels (str "Tokyo") (elements_payload mixed_elements) = Ok hotels /\
    Forall2 (built_from (str "Tokyo")) (take 3 (candidates mixed_elements)) hotels.
Proof.
  assert (Hd : elements_fields mixed_elements !! str "elements" = Some (JArr mixed_elements))
    by (vm_compute; reflexivity).
  split.
  - apply (search_hotels_candidates (str "Tokyo") _ mixed_elements Hd).
    simpl. repeat constructor.
  - apply (search_hotels_candidates (str "Tokyo") _ mixed_elements Hd).
    simpl. repeat (constructor; [right; eexists; vm_compute; reflexivity |]). constructor.
Defined.

(** In a world whose geocoder answers with an empty result set. *)
Lemma search_hotels_no_coordinates_witness :
  search_hotels (str "Atlantis") no_match_world []
    = (Ok [], [EvRequest (geocode_request (str "Atlantis"))]) /\
  requests [EvRequest (geocode_request (str "Atlantis"))]
    = requests ([] : list (@event Z)) ++ [geocode_request (str "Atlantis")].
Proof.
  apply (search_hotels_no_coordinates no_match_world (str "Atlantis") [] _ None None).
  - reflexivity.
  - left. reflexivity.
Defined.

(** ** The flight fetcher *)

Section Flights.
Context {number : Type} `{Numeric number} `{Casing}.
#[local] Abbreviation json := (json number).
#[local] Abbreviation flight := (@flight number).
#[local] Abbreviation env := (@env number).
#[local] Abbreviation event := (@event number).




Lemma failed_not_read {A : Type} (read : json -> result A) (data : json) (a : A) :
  read data = Ok a -> ~ failed read (Response true (Some data)).
Proof. intros Hr Hf. inversion Hf; subst. congruence. Qed.


Lemma nested_get (d : gmap (list N) json) (outer inner default : list N) :
  absent_or_object d outer ->
  exists sub,
    py_get (JObj d) outer (JObj ∅) = Ok (JObj sub) /\
    py_get (JObj sub) inner (JStr default) = Ok (nested d outer inner default).
Proof.
  unfold nested, py_get, dict_get. intros [Hd | (sub & Hd)]; rewrite Hd.
  - exists ∅. rewrite lookup_empty. auto.
  - exists sub. auto.
Qed.

Lemma nested_defaulted (d : gmap (list N) json) (outer inner default : list N) :
  defaulted d outer inner default (nested d outer inner default).
Proof.
  unfold defaulted, nested, dict_get. split.
  - intros [Hd | (sub & Hd & Hs)]; rewrite Hd; [reflexivity |]. rewrite Hs. reflexivity.
  - intros v (sub & Hd & Hs). rewrite Hd, Hs. reflexivity.
Qed.

(** C8, as the code has it: for an entry whose four sub-objects are absent
    or objects, each field of the flight record is the upstream field when it
    is present and its own default when it is absent, whatever the other
    fields are: "Unknown Airline" for the airline name, "Unknown" for the
    flight number and the two timestamps. *)
Theorem make_flight_defaults (d : gmap (list N) json) :
  absent_or_object d (str "airline") ->
  absent_or_object d (str "flight") ->
  absent_or_object d (str "departure") ->
  absent_or_object d (str "arrival") ->
  exists f,
    make_flight (JObj d) = Ok f /\
    defaulted d (str "airline") (str "name") (str "Unknown Airline") (airline f) /\
    defaulted d (str "flight") (str "number") (str "Unknown") (flight_number f) /\
    defaulted d (str "departure") (str "scheduled") (str "Unknown") (departure f) /\
    defaulted d (str "arrival") (str "scheduled") (str "Unknown") (arrival f).
Proof.
  intros Ha Hf Hd Hr.
  destruct (nested_get d _ (str "name") (str "Unknown Airline") Ha) as (s1 & Ho1 & Hi1).
  destruct (nested_get d _ (str "number") (str "Unknown") Hf) as (s2 & Ho2 & Hi2).
  destruct (nested_get d _ (str "scheduled") (str "Unknown") Hd) as (s3 & Ho3 & Hi3).
  destruct (nested_get d _ (str "scheduled") (str "Unknown") Hr) as (s4 & Ho4 & Hi4).
  eexists. split.
  - unfold make_flight.
    rewrite Ho1; cbn [mbind result_bind rbind]; rewrite Hi1; cbn [mbind result_bind rbind].
    rewrite Ho2; cbn [mbind result_bind rbind]; rewrite Hi2; cbn [mbind result_bind rbind].
    rewrite Ho3; cbn [mbind result_bind rbind]; rewrite Hi3; cbn [mbind result_bind rbind].
    rewrite Ho4; cbn [mbind result_bind rbind]; rewrite Hi4; cbn [mbind result_bind rbind].
    reflexivity.
  - cbn [airline flight_number departure arrival].
    repeat split; apply nested_defaulted.
Qed.

End Flights.

(** At an entry with an airline name, an empty flight object and no
    departure or arrival. *)
Lemma make_flight_defaults_witness :
  exists f,
    make_flight (JObj partial_entry) = Ok f /\
    defaulted partial_entry (str "airline") (str "name") (str "Unknown Airline") (airline f) /\
    defaulted partial_entry (str "flight") (str "number") (str "Unknown") (flight_number f) /\
    defaulted partial_entry (str "departure") (str "scheduled") (str "Unknown") (departure f) /\
    defaulted partial_entry (str "arrival") (str "scheduled") (str "Unknown") (arrival f).
Proof.
  apply make_flight_defaults.
  - right. eexists. vm_compute. reflexivity.
  - right. eexists. vm_compute. reflexivity.
  - left. vm_compute. reflexivity.
  - left. vm_compute. reflexivity.
Defined.

Example make_flight_partial :
  make_flight (JObj partial_entry)
    = Ok {| airline := JStr (str "ANA");
            flight_number := JStr (str "Unknown");
            departure := JStr (str "Unknown");
            arrival := JStr (str "Unknown") |}.
Proof. vm_compute. reflexivity. Qed.

(** C8 as stated fails for the airline name: an entry with no field at all
    gets "Unknown Airline", not "Unknown". *)
Lemma make_flight_unknown_airline :
  exists f,
    make_flight (JObj ∅ : json Z) = Ok f /\
    field_absent (∅ : gmap (list N) (json Z)) (str "airline") (str "name") /\
    airline f = JStr (str "Unknown Airline") /\
    airline f <> JStr (str "Unknown").
Proof.
  eexists. split; [vm_compute; reflexivity |].
  split; [left; apply lookup_empty |].
  split; [reflexivity |]. intros [= Heq].
Qed.


(** ** The page: weather section and narrative *)

Section Page.
Context {number : Type} `{Numeric number} `{Casing}.
#[local] Abbreviation json := (json number).
#[local] Abbreviation env := (@env number).
#[local] Abbreviation event := (@event number).
#[local] Abbreviation request := (@request number).
#[local] Abbreviation M := (@M number).

Lemma get_weather_data_run (e : env) (city : list N) (log : list event) :
  let r := weather_request (getenv e "OPENWEATHER_API_KEY") city in
  (exists data,
      send e r = Response true (Some data) /\
      get_weather_data city e log = (Ok data, log ++ [EvRequest r])) \/
  (exists x,
      failed Ok (send e r) /\
      get_weather_data city e log =
        (Ok (JObj ∅),
         (log ++ [EvRequest r])
           ++ [EvSt (st_error [Lit "Error fetching weather data: "; FExn x])])).
Proof.
  intros r. unfold get_weather_data, os_getenv, try_except, requests_send, st, emit, lift.
  unfold mbind, mret, M_bind, M_ret. fold r.
  destruct (send e r) as [| [] [data |]] eqn:Hs; simpl.
  - right. eexists. split; [constructor | reflexivity].
  - left. eauto.
  - right. eexists. split; [constructor | reflexivity].
  - right. eexists. split; [constructor | reflexivity].
  - right. eexists. split; [constructor | reflexivity].
Qed.

Lemma st_run (c : st_call) (e : env) (log : list event) :
  st c e log = (Ok tt, log ++ [EvSt c]).
Proof. reflexivity. Qed.

Lemma not_later_weather (c : st_call) :
  (forall h, c = st_subheader h -> h = WeatherInformation) ->
  ~ later_heading (EvSt c : event).
Proof. intros Hc (h & Hne & [= ->]). apply Hne, Hc. reflexivity. Qed.

(** The weather section puts on the page its own heading and lines only. *)
Lemma weather_section_log (weather_data : json) (e : env) (log : list event) :
  exists r extra,
    weather_section weather_data e log = (r, log ++ extra) /\
    Forall (fun ev => ~ later_heading ev) extra.
Proof.
  unfold weather_section, when. destruct (py_bool weather_data).
  - unfold st, emit, lift, mbind, mret, M_bind, M_ret.
    match goal with
    | |- context [match ?t with Ok _ => _ | Raise _ => _ end] => destruct t
    end.
    + match goal with
      | |- context [match ?t with Ok _ => _ | Raise _ => _ end] => destruct t
      end.
      * eexists _, [_; _; _]. rewrite <- !app_assoc. split; [reflexivity |].
        repeat constructor; apply not_later_weather; intros h [=]; auto.
      * eexists _, [_]. split; [reflexivity |].
        repeat constructor; apply not_later_weather; intros h [=]; auto.
    + eexists _, [_]. split; [reflexivity |].
      repeat constructor; apply not_later_weather; intros h [=]; auto.
  - eexists _, []. rewrite app_nil_r. split; [reflexivity | constructor].
Qed.

Lemma get_weather_data_log (e : env) (city : list N) (log : list event) :
  exists weather_data extra,
    get_weather_data city e log = (Ok weather_data, log ++ extra) /\
    Forall (fun ev => ~ later_heading ev) extra.
Proof.
  destruct (get_weather_data_run e city log) as [(data & _ & ->) | (x & _ & ->)].
  - eexists _, [_]. split; [reflexivity |].
    repeat constructor. intros (h & _ & [=]).
  - eexists _, [_; _]. rewrite <- app_assoc. split; [reflexivity |].
    repeat constructor; [intros (h & _ & [=]) |].
    apply not_later_weather. intros h [=].
Qed.

Lemma generate_trip_plan_raises (e : env) (city : list N) (days : Z) (month : list N)
    (log : list event) :
  invoke e (trip_messages city days month) = None ->
  generate_trip_plan city days month e log
    = (Raise InvokeError, log ++ [EvInvoke (trip_messages city days month)]).
Proof.
  intros Hinv. unfold generate_trip_plan, llm_invoke, mbind, M_bind.
  rewrite Hinv. reflexivity.
Qed.

Lemma main_aborts (e : env) (i : inputs) (log : list event) :
  plan_my_trip i = true ->
  invoke e (trip_messages (destination_city i) (number_of_days i) (month_of_travel i)) = None ->
  exists x added,
    main i e log = (Raise x, log ++ added) /\
    Forall (fun ev => ~ later_heading ev) added.
Proof.
  intros Hgo Hinv. unfold main. rewrite Hgo. unfold when.
  rewrite (mbind_run _ _ _ _ _ _ (st_run _ _ _)).
  rewrite (mbind_run _ _ _ _ _ _ (st_run _ _ _)).
  set (log0 := (log ++ _) ++ _).
  destruct (get_weather_data_log e (destination_city i) log0) as (wd & ex1 & Hw & Hex1).
  rewrite (mbind_run _ _ _ _ _ _ Hw).
  destruct (weather_section_log wd e (log0 ++ ex1)) as ([[] | x] & ex2 & Hs & Hex2).
  - rewrite (mbind_run _ _ _ _ _ _ Hs).
    rewrite (mbind_raise _ _ _ _ _ _ (generate_trip_plan_raises _ _ _ _ _ Hinv)).
    eexists _, (_ :: _ :: ex1 ++ ex2 ++ [_]). unfold log0.
    rewrite <- !app_assoc. split; [reflexivity |].
    repeat first [apply Forall_cons; split | apply Forall_app; split]; auto.
    + apply not_later_weather. intros h [=].
    + apply not_later_weather. intros h [=].
    + intros (h & _ & [=]).
  - rewrite (mbind_raise _ _ _ _ _ _ Hs).
    eexists _, (_ :: _ :: ex1 ++ ex2). unfold log0.
    rewrite <- !app_assoc. split; [reflexivity |].
    repeat first [apply Forall_cons; split | apply Forall_app; split]; auto.
    + apply not_later_weather. intros h [=].
    + apply not_later_weather. intros h [=].
Qed.

(** C5: the narrative generator has no handler, so a failure of the hosted
    model comes out of it as a raised exception; in [main] the exception ends
    the run before any later heading (trip plan, hotels, flights) is put on
    the page.  The four fetchers, in contrast, never raise, and return their
    empty value when the call fails. *)
Theorem narrative_failure_is_fatal :
  (forall (e : env) city days month log,
      invoke e (trip_messages city days month) = None ->
      generate_trip_plan city days month e log
        = (Raise InvokeError, log ++ [EvInvoke (trip_messages city days month)])) /\
  (forall (e : env) i log,
      plan_my_trip i = true ->
      invoke e (trip_messages (destination_city i) (number_of_days i) (month_of_travel i))
        = None ->
      exists x added,
        main i e log = (Raise x, log ++ added) /\
        Forall (fun ev => ~ later_heading ev) added) /\
  (forall (e : env) city log,
      exists weather_data log',
        get_weather_data city e log = (Ok weather_data, log') /\
        (failed Ok (send e (weather_request (getenv e "OPENWEATHER_API_KEY") city)) ->
         weather_data = JObj ∅)) /\
  (forall (e : env) city log,
      exists c log',
        get_city_coordinates city e log = (Ok c, log') /\
        (failed read_coordinates (send e (geocode_request city)) -> c = (None, None))) /\
  (forall (e : env) city log,
      exists hotels log',
        search_hotels city e log = (Ok hotels, log') /\
        (forall lat lon,
            fst (get_city_coordinates city e log) = Ok (Some lat, Some lon) ->
            failed (read_hotels city) (send e (overpass_request lat lon)) ->
            hotels = [])) /\
  (forall (e : env) origin destination log,
      exists flights log',
        search_flights origin destination e log = (Ok flights, log') /\
        (failed read_flights
           (send e (flights_request (getenv e "AVIATIONSTACK_API_KEY") origin destination)) ->
         flights = [])).
Proof.
  split; [exact generate_trip_plan_raises |]. split; [exact main_aborts |].
  split; [| split; [| split]].
  - intros e city log.
    destruct (get_weather_data_run e city log) as [(data & Hsend & ->) | (x & _ & ->)].
    + eexists _, _. split; [reflexivity |]. rewrite Hsend. intros Hf.
      inversion Hf; subst. discriminate.
    + eexists _, _. split; reflexivity.
  - intros e city log.
    destruct (get_city_coordinates_run e city log)
      as [(data & c & Hsend & Hread & ->) | (x & _ & ->)].
    + eexists _, _. split; [reflexivity |]. rewrite Hsend. intros Hf.
      destruct (failed_not_read _ _ _ Hread Hf).
    + eexists _, _. split; reflexivity.
  - intros e city log.
    destruct (get_city_coordinates_total e city log)
      as (lat & lon & extra & Hgeo & _ & [[-> ->] | (x & y & -> & ->)]).
    + rewrite (search_hotels_not_found _ _ _ _ _ _ Hgeo) by auto.
      eexists _, _. split; reflexivity.
    + destruct (search_hotels_found _ _ _ _ _ _ Hgeo)
        as [(data & hotels & Hsend & Hread & ->) | (x0 & _ & ->)].
      * eexists _, _. split; [reflexivity |]. rewrite Hgeo. simpl.
        intros lat lon [= <- <-]. rewrite Hsend. intros Hf.
        destruct (failed_not_read _ _ _ Hread Hf).
      * eexists _, _. split; reflexivity.
  - intros e origin destination log.
    destruct (search_flights_run e origin destination log)
      as [(data & flights & Hsend & Hread & ->) | (x & _ & ->)].
    + eexists _, _. split; [reflexivity |]. rewrite Hsend. intros Hf.
      destruct (failed_not_read _ _ _ Hread Hf).
    + eexists _, _. split; reflexivity.
Qed.

Lemma weather_section_skipped (weather_data : json) (e : env) (log : list event) :
  py_bool weather_data = false -> weather_section weather_data e log = (Ok tt, log).
Proof. intros Hb. unfold weather_section, when. rewrite Hb. reflexivity. Qed.

(** C7, as the code has it: after an empty or failed weather response the
    weather part of the page raises nothing and shows no weather section at
    all, neither heading nor data nor a notice of its own.  After a failed
    call what it adds to the log is the request and the fetcher's own error
    message; after an answered payload that is empty it adds the request
    alone, so nothing is put on the page. *)
Theorem weather_section_omitted (e : env) (city : list N) (log : list event) :
  let r := weather_request (getenv e "OPENWEATHER_API_KEY") city in
  (failed Ok (send e r) ->
   exists x,
     (get_weather_data city ≫= weather_section) e log
       = (Ok tt,
          log ++ [ EvRequest r;
                   EvSt (st_error [Lit "Error fetching weather data: "; FExn x]) ])) /\
  (forall data,
      send e r = Response true (Some data) -> py_bool data = false ->
      (get_weather_data city ≫= weather_section) e log = (Ok tt, log ++ [EvRequest r])).
Proof.
  intros r.
  assert (Hnf : forall data : json, ~ failed Ok (@Response number true (Some data))).
  { intros data Hf. inversion Hf; subst. discriminate. }
  split.
  - intros Hf.
    destruct (get_weather_data_run e city log) as [(data & Hsend & Hrun) | (x & _ & Hrun)].
    + fold r in Hsend. rewrite Hsend in Hf. destruct (Hnf _ Hf).
    + exists x. rewrite (mbind_run _ _ _ _ _ _ Hrun).
      rewrite weather_section_skipped by (simpl; rewrite bool_decide_true; done).
      rewrite <- app_assoc. reflexivity.
  - intros data Hsend Hb.
    destruct (get_weather_data_run e city log) as [(data' & Hsend' & Hrun) | (x & Hf & _)].
    + fold r in Hsend'. rewrite Hsend in Hsend'. injection Hsend' as <-.
      rewrite (mbind_run _ _ _ _ _ _ Hrun). apply weather_section_skipped, Hb.
    + fold r in Hf. rewrite Hsend in Hf. destruct (Hnf _ Hf).
Qed.

(** ** Determinism of the hotel and flight fetchers *)

Lemma fetch_answer {A : Type} (r : request) (read : json -> result A)
    (msg : string) (empty : A) (e : env) (log : list event) :
  exists log',
    try_except
      (response ← requests_send r;
       lift (raise_for_status response);;
       data ← lift (response_json response);
       lift (read data))
      (fun x => st (st_error [Lit msg; FExn x]);; mret empty) e log
    = (Ok (answer read empty (send e r)), log').
Proof.
  unfold try_except, requests_send, st, emit, lift, answer.
  unfold mbind, mret, M_bind, M_ret.
  destruct (send e r) as [| [] [data |]]; simpl; try (eexists; reflexivity).
  destruct (read data); eexists; reflexivity.
Qed.

(** What the hotel fetcher returns, as a function of the two answers. *)
Lemma search_hotels_answer (e : env) (city : list N) (log : list event) :
  exists log',
    search_hotels city e log =
      (Ok match answer read_coordinates (None, None) (send e (geocode_request city)) with
          | (Some lat, Some lon) =>
              answer (read_hotels city) [] (send e (overpass_request lat lon))
          | _ => []
          end, log').
Proof.
  destruct (fetch_answer (geocode_request city) read_coordinates
              "Error fetching city coordinates: " (None, None) e log) as (log1 & Hgeo).
  change (get_city_coordinates city e log = (Ok (answer read_coordinates (None, None)
            (send e (geocode_request city))), log1)) in Hgeo.
  unfold search_hotels. rewrite (mbind_run _ _ _ _ _ _ Hgeo).
  destruct (answer read_coordinates _ _) as [[lat |] [lon |]]; try (eexists; reflexivity).
  apply (fetch_answer (overpass_request lat lon) (read_hotels city)).
Qed.

Lemma search_flights_answer (e : env) (origin destination : list N) (log : list event) :
  exists log',
    search_flights origin destination e log =
      (Ok (answer read_flights []
             (send e (flights_request (getenv e "AVIATIONSTACK_API_KEY") origin destination))),
       log').
Proof. apply (fetch_answer _ read_flights). Qed.

(** C9: the records the hotel fetcher and the flight fetcher return depend
    only on their arguments, the configuration and the answers of the
    services: in two worlds that agree on these, from any two logs, both
    fetchers return the same records. *)
Theorem fetchers_deterministic (e1 e2 : env) (city origin destination : list N)
    (log1 log2 : list event) :
  same_upstream e1 e2 ->
  fst (search_hotels city e1 log1) = fst (search_hotels city e2 log2) /\
  fst (search_flights origin destination e1 log1)
    = fst (search_flights origin destination e2 log2).
Proof.
  intros [Hsend Hkey]. split.
  - destruct (search_hotels_answer e1 city log1) as (l1 & ->).
    destruct (search_hotels_answer e2 city log2) as (l2 & ->).
    simpl. rewrite Hsend.
    destruct (answer read_coordinates _ _) as [[lat |] [lon |]]; try reflexivity.
    rewrite Hsend. reflexivity.
  - destruct (search_flights_answer e1 origin destination log1) as (l1 & ->).
    destruct (search_flights_answer e2 origin destination log2) as (l2 & ->).
    simpl. rewrite Hsend, Hkey. reflexivity.
Qed.

End Page.

(** ** Runs in concrete worlds *)

(** In a world whose model fails while every service answers. *)
Lemma narrative_failure_is_fatal_witness :
  generate_trip_plan (str "Tokyo") 3 (str "April") silent_model_world []
    = (Raise InvokeError, [] ++ [EvInvoke (trip_messages (str "Tokyo") 3 (str "April"))]) /\
  exists x added,
    main tokyo_inputs silent_model_world [] = (Raise x, [] ++ added) /\
    Forall (fun ev => ~ later_heading ev) added.
Proof.
  split.
  - apply (proj1 narrative_failure_is_fatal). reflexivity.
  - apply (proj1 (proj2 narrative_failure_is_fatal)); reflexivity.
Defined.

(** With a model that fails the page ends with the weather section. *)
Example main_silent_model :
  fst (main tokyo_inputs silent_model_world []) = Raise InvokeError /\
  page (snd (main tokyo_inputs silent_model_world [])) =
    [ st_title "AI Travel Planner";
      st_write [Lit "Plan your perfect trip with AI-powered recommendations and real-time data!"];
      st_subheader WeatherInformation;
      st_write [Lit "Current temperature: "; FVal (JNum 18%Z); Lit "C"];
      st_write [Lit "Weather conditions: "; FVal (JStr (str "clear sky"))] ].
Proof. split; vm_compute; reflexivity. Qed.

(** In a world whose weather service is unreachable, and in one whose
    weather service answers with an empty object. *)
Lemma weather_section_omitted_witness :
  (exists x,
      (get_weather_data (str "Tokyo") ≫= weather_section) no_match_world []
        = (Ok tt,
           [] ++ [ EvRequest (weather_request (getenv no_match_world "OPENWEATHER_API_KEY")
                                (str "Tokyo"));
                   EvSt (st_error [Lit "Error fetching weather data: "; FExn x]) ])) /\
  (get_weather_data (str "Tokyo") ≫= weather_section) empty_weather_world []
    = (Ok tt,
       [] ++ [EvRequest (weather_request (getenv empty_weather_world "OPENWEATHER_API_KEY")
                           (str "Tokyo"))]).
Proof.
  split.
  - apply (proj1 (weather_section_omitted no_match_world (str "Tokyo") [])).
    vm_compute. constructor.
  - apply (proj2 (weather_section_omitted empty_weather_world (str "Tokyo") []) (obj [])).
    + reflexivity.
    + vm_compute. reflexivity.
Defined.

(** C7 as stated fails: after an empty weather response the run does not
    raise, and between the introduction and the trip plan the page shows
    nothing about the weather, while the hotel and flight sections each
    show their notice. *)
Lemma main_empty_weather :
  get_weather_data (str "Tokyo") empty_weather_world []
    = (Ok (JObj ∅), [EvRequest (weather_request None (str "Tokyo"))]) /\
  fst (main tokyo_inputs empty_weather_world []) = Ok tt /\
  page (snd (main tokyo_inputs empty_weather_world [])) =
    [ st_title "AI Travel Planner";
      st_write [Lit "Plan your perfect trip with AI-powered recommendations and real-time data!"];
      st_subheader YourTripPlan;
      st_write [FStr (str "Day 1")];
      st_subheader HotelOptions;
      st_warning hotel_warning;
      st_subheader FlightOptions;
      st_error [Lit "Error fetching flight data: "; FExn ConnectionError];
      st_warning flight_warning ].
Proof. split; [| split]; vm_compute; reflexivity. Qed.

(** Two worlds that differ in the model only, from two different logs. *)
Lemma fetchers_deterministic_witness :
  fst (search_hotels (str "Tokyo") full_world [])
    = fst (search_hotels (str "Tokyo") silent_model_world [EvSt (st_title "AI Travel Planner")]) /\
  fst (search_flights (str "LHR") (str "HND") full_world [])
    = fst (search_flights (str "LHR") (str "HND") silent_model_world
             [EvSt (st_title "AI Travel Planner")]).
Proof.
  apply (fetchers_deterministic full_world silent_model_world).
  split; intros; reflexivity.
Defined.

(** Of five upstream entries the first three give the records. *)
Example search_flights_five :
  exists f1 f2 f3 log',
    search_flights (str "LHR") (str "HND")
      (world NoResponse NoResponse five_flights NoResponse None) []
    = (Ok [f1; f2; f3], log') /\
    flight_number f1 = JStr (str "NH211") /\
    flight_number f2 = JStr (str "JL44") /\
    flight_number f3 = JStr (str "BA5") /\
    airline f1 = JStr (str "Unknown Airline").
Proof. vm_compute. do 4 eexists. repeat split. Qed.

(** After a failed geocoding call the hotel fetcher shows the geocoder's
    error, sends nothing more and returns the empty list. *)
Example search_hotels_unreachable_geocoder :
  search_hotels (str "Tokyo")
    (world NoResponse (Response true (Some (elements_payload mixed_elements)))
           NoResponse NoResponse None) []
  = (Ok [],
     [ EvRequest (geocode_request (str "Tokyo"));
       EvSt (st_error [Lit "Error fetching city coordinates: "; FExn ConnectionError]) ]).
Proof. vm_compute. reflexivity. Qed.

(** The end-to-end scenario: Tokyo from London is queried as LHR to HND,
    after the weather, geocoding and spatial requests. *)
Example main_tokyo_requests :
  fst (main tokyo_inputs full_world []) = Ok tt /\
  requests (snd (main tokyo_inputs full_world [])) =
    [ weather_request None (str "Tokyo");
      geocode_request (str "Tokyo");
      overpass_request 35%Z 139%Z;
      flights_request None (str "LHR") (str "HND") ].
Proof. split; vm_compute; reflexivity. Qed.

(** * Further properties *)

(** ** More on get_airport_code *)

(** The keys of the table are lowercase ASCII and its codes are three
    uppercase ASCII letters. *)
Lemma airport_codes_entries (key code : list N) :
  airport_codes !! key = Some code ->
  (Forall (fun c => (c < 128)%N) key /\ lower_table key = key) /\
  (length code = 3 /\ Forall (fun c => (0x41 <= c <= 0x5a)%N) code).
Proof.
  revert key code.
  change (map_Forall (fun key code : list N =>
            (Forall (fun c => (c < 128)%N) key /\ lower_table key = key) /\
            (length code = 3 /\ Forall (fun c => (0x41 <= c <= 0x5a)%N) code))
          airport_codes).
  apply (bool_decide_unpack _). vm_compute. exact I.
Qed.

Lemma upper_cp_ascii_upper (c : N) :
  (c < 128)%N ->
  Forall (fun u => (u < 128)%N /\ ~ (0x61 <= u <= 0x7a)%N) (upper_cp c).
Proof.
  intros Hc. unfold upper_cp.
  repeat match goal with
         | |- context [(?x <=? ?y)%N] => destruct (N.leb_spec x y)
         | |- context [(?x =? ?y)%N] => destruct (N.eqb_spec x y)
         end; simpl; try lia; repeat constructor; lia.
Qed.

Lemma upper_table_ascii_upper (s : list N) :
  is_ascii s ->
  Forall (fun u => (u < 128)%N /\ ~ (0x61 <= u <= 0x7a)%N) (upper_table s).
Proof.
  induction 1 as [| c s Hc _ IH]; [constructor |].
  unfold upper_table in *. simpl. apply Forall_app.
  split; [apply upper_cp_ascii_upper, Hc | exact IH].
Qed.

Section AirportCodeMore.
Context `{Casing}.

(** X1: the table lookup ignores case for every entry: a name that is a key
    of the table with the case of some letters changed gives the code of
    that key. *)
Theorem get_airport_code_any_casing (key code city : list N) :
  airport_codes !! key = Some code ->
  casing_of key city ->
  get_airport_code city = code.
Proof.
  intros Hkey Hc.
  destruct (airport_codes_entries key code Hkey) as [[Hascii Hlow] _].
  unfold get_airport_code, dict_get.
  rewrite (lower_casing key city Hascii Hc), (lower_ascii key Hascii), Hlow, Hkey.
  reflexivity.
Qed.

(** X2: for an ASCII name the code is ASCII, has no lowercase letter and has
    at most three characters, exactly three when the name has three or
    more. *)
Theorem get_airport_code_ascii (city : list N) :
  is_ascii city ->
  Forall (fun u => (u < 128)%N /\ ~ (0x61 <= u <= 0x7a)%N) (get_airport_code city) /\
  length (get_airport_code city) <= 3 /\
  (3 <= length city -> length (get_airport_code city) = 3).
Proof.
  intros Ha. unfold get_airport_code, dict_get.
  destruct (airport_codes !! lower city) as [code |] eqn:Hl.
  - destruct (airport_codes_entries _ _ Hl) as [_ [Hlen Hup]].
    split; [| lia].
    eapply Forall_impl; [exact Hup |]. simpl. intros u Hu. lia.
  - assert (Ht : is_ascii (take 3 city)) by (apply Forall_take, Ha).
    split.
    + rewrite (upper_ascii _ Ht). apply upper_table_ascii_upper, Ht.
    + rewrite (upper_ascii_length _ Ht), length_take. lia.
Qed.

End AirportCodeMore.

(** At "New York", a casing of the key "new york". *)
Lemma get_airport_code_any_casing_witness :
  get_airport_code (str "New York") = str "JFK".
Proof.
  apply (get_airport_code_any_casing (str "new york")).
  - vm_compute. reflexivity.
  - unfold casing_of, str; simpl.
    repeat (constructor; [unfold same_letter; lia |]). constructor.
Defined.

(** At "Lagos". *)
Lemma get_airport_code_ascii_witness :
  Forall (fun u => (u < 128)%N /\ ~ (0x61 <= u <= 0x7a)%N) (get_airport_code (str "Lagos")) /\
  length (get_airport_code (str "Lagos")) <= 3 /\
  (3 <= length (str "Lagos") -> length (get_airport_code (str "Lagos")) = 3).
Proof.
  apply get_airport_code_ascii.
  unfold is_ascii, str; simpl. repeat (constructor; [lia |]). constructor.
Defined.

(** ** More on the geocoder *)

Section Geocoder.
Context {number : Type} `{Numeric number} `{Casing}.
#[local] Abbreviation json := (json number).
#[local] Abbreviation hotel := (@hotel number).
#[local] Abbreviation flight := (@flight number).
#[local] Abbreviation env := (@env number).
#[local] Abbreviation event := (@event number).

(** X3: the geocoder never raises, and the pair it returns is never half
    null: both coordinates are numbers or both are [None]. *)
Theorem get_city_coordinates_both_or_neither (e : env) (city : list N)
    (log : list event) :
  exists c log',
    get_city_coordinates city e log = (Ok c, log') /\
    (c = (None, None) \/ exists x y, c = (Some x, Some y)).
Proof.
  destruct (get_city_coordinates_run e city log)
    as [(data & [lat lon] & _ & Hread & ->) | (x & _ & ->)].
  - eexists _, _. split; [reflexivity |].
    destruct (read_coordinates_both _ _ _ Hread) as [[-> ->] | (x & y & -> & ->)]; eauto.
  - eexists _, _. split; [reflexivity | auto].
Qed.

(** X4: when the answer is a list whose first match is an object with
    readable "lat" and "lon", the geocoder returns these two numbers, shows
    nothing and does not look at the other matches. *)
Theorem get_city_coordinates_first_match (e : env) (city : list N) (log : list event)
    (d : gmap (list N) json) (others : list json) (vlat vlon : json) (x y : number) :
  send e (geocode_request city) = Response true (Some (JArr (JObj d :: others))) ->
  d !! str "lat" = Some vlat -> d !! str "lon" = Some vlon ->
  py_float vlat = Ok x -> py_float vlon = Ok y ->
  get_city_coordinates city e log
    = (Ok (Some x, Some y), log ++ [EvRequest (geocode_request city)]).
Proof.
  intros Hsend Hlat Hlon Hx Hy.
  unfold get_city_coordinates, try_except, requests_send, st, emit, lift.
  unfold mbind, mret, M_bind, M_ret. rewrite Hsend. simpl.
  unfold read_coordinates. simpl. rewrite Hlat. simpl. rewrite Hx. simpl.
  rewrite Hlon. simpl. rewrite Hy. reflexivity.
Qed.

(** X5: when the first match is an object without "lat", the geocoder shows
    its error with the [KeyError] and returns the null pair. *)
Theorem get_city_coordinates_missing_key (e : env) (city : list N) (log : list event)
    (d : gmap (list N) json) (others : list json) :
  send e (geocode_request city) = Response true (Some (JArr (JObj d :: others))) ->
  d !! str "lat" = None ->
  get_city_coordinates city e log
    = (Ok (None, None),
       log ++ [ EvRequest (geocode_request city);
                EvSt (st_error [Lit "Error fetching city coordinates: "; FExn KeyError]) ]).
Proof.
  intros Hsend Hlat.
  unfold get_city_coordinates, try_except, requests_send, st, emit, lift.
  unfold mbind, mret, M_bind, M_ret. rewrite Hsend. simpl.
  unfold read_coordinates. simpl. rewrite Hlat. simpl.
  rewrite <- app_assoc. reflexivity.
Qed.

End Geocoder.

(** ** More on the hotel and flight records *)

Section Records.
Context {number : Type} `{Numeric number} `{Casing}.
#[local] Abbreviation json := (json number).
#[local] Abbreviation hotel := (@hotel number).
#[local] Abbreviation flight := (@flight number).
#[local] Abbreviation env := (@env number).
#[local] Abbreviation event := (@event number).

(** X6: no element is rejected for missing fields.  An object whose tags are
    absent or an object gives a record; each field is the tag when it is
    present and its default when it is absent, the searched city being the
    default of the city; the coordinates are those of the element, [None]
    when absent. *)
Theorem make_hotel_defaults (city : list N) (d : gmap (list N) json) :
  absent_or_object d (str "tags") ->
  exists h,
    built_from city (JObj d) h /\
    defaulted d (str "tags") (str "name") (str "Unnamed Hotel") (name h) /\
    defaulted d (str "tags") (str "addr:street") (str "Street not available")
      (street (hotel_address h)) /\
    defaulted d (str "tags") (str "addr:city") city (addr_city (hotel_address h)) /\
    defaulted d (str "tags") (str "addr:country") (str "Country not available")
      (country (hotel_address h)) /\
    defaulted d (str "tags") (str "stars") (str "N/A") (stars h) /\
    defaulted d (str "tags") (str "phone") (str "Phone not available") (phone h) /\
    defaulted d (str "tags") (str "website") (str "Website not available") (website h) /\
    lat (hotel_coordinates h) = dict_get d (str "lat") JNull /\
    lon (hotel_coordinates h) = dict_get d (str "lon") JNull.
Proof.
  intros Htags. destruct (tags_get d Htags) as (tags & Hget & Hfield).
  eexists. split.
  - exists (JObj tags). split; [exact Hget | reflexivity].
  - cbn [name hotel_address stars phone website hotel_coordinates street addr_city
         country lat lon].
    rewrite !Hfield. repeat split; apply nested_defaulted.
Qed.

(** X7: when the first five elements are objects with tags absent or an
    object, the fetcher reads exactly one record for each of the first three
    node elements among them, in order. *)
Theorem read_hotels_exact (city : list N) (d : gmap (list N) json)
    (elements : list json) :
  d !! str "elements" = Some (JArr elements) ->
  Forall hotel_element_ok (take 5 elements) ->
  exists hotels,
    read_hotels city (JObj d) = Ok hotels /\
    Forall2 (built_from city) (take 3 (candidates elements)) hotels.
Proof.
  intros Hd Hok.
  destruct (hotels_loop_exact city _ Hok []) as (new & Hrun & Hall); [simpl; lia |].
  exists new. split; [| exact Hall].
  unfold read_hotels, py_get, dict_get. rewrite Hd. exact Hrun.
Qed.

Lemma hotels_loop_app (city : list N) (pre rest : list json) :
  forall hotels hs,
    hotels_loop city pre hotels = Ok hs -> length hs < 3 ->
    hotels_loop city (pre ++ rest) hotels = hotels_loop city rest hs.
Proof.
  induction pre as [| element pre IH]; intros hotels hs Hrun Hlen; simpl in Hrun.
  - injection Hrun as <-. reflexivity.
  - simpl. destruct (py_get element (str "type") JNull) as [ty | x]; [| discriminate].
    simpl in *. destruct (py_eq_str ty (str "node")); [| eauto].
    destruct (py_get element (str "tags") (JObj ∅)) as [tags | x]; [| discriminate].
    simpl in *. destruct (make_hotel city element tags) as [h | x]; [| discriminate].
    simpl in *. destruct (3 <=? length (hotels ++ [h]))%nat eqn:Hfull; [| eauto].
    apply Nat.leb_le in Hfull. injection Hrun as <-. lia.
Qed.

(** X8: the records are all or nothing.  When an element that is not an
    object is among the first five and is reached before three records are
    built, reading the payload raises, so the records already built are
    lost. *)
Theorem read_hotels_all_or_nothing (city : list N) (d : gmap (list N) json)
    (pre post : list json) (bad : json) (hs : list hotel) :
  d !! str "elements" = Some (JArr (pre ++ bad :: post)) ->
  length pre < 5 ->
  hotels_loop city pre [] = Ok hs -> length hs < 3 ->
  ~ is_object bad ->
  read_hotels city (JObj d) = Raise AttributeError.
Proof.
  intros Hd Hpre Hrun Hlen Hbad.
  unfold read_hotels, py_get, dict_get. rewrite Hd. cbn [mbind result_bind rbind py_slice_items].
  rewrite take_app, (take_ge pre) by lia.
  destruct (5 - length pre) as [| n] eqn:Hn; [lia |]. simpl take.
  rewrite (hotels_loop_app _ _ _ _ _ Hrun Hlen).
  destruct bad; try reflexivity. destruct Hbad. exact I.
Qed.

Lemma make_flight_ok (entry : json) :
  flight_entry_ok entry -> exists f, make_flight entry = Ok f.
Proof.
  destruct entry as [| | | | | d]; try contradiction. intros (Ha & Hf & Hd & Hr).
  destruct (nested_get d _ (str "name") (str "Unknown Airline") Ha) as (s1 & Ho1 & Hi1).
  destruct (nested_get d _ (str "number") (str "Unknown") Hf) as (s2 & Ho2 & Hi2).
  destruct (nested_get d _ (str "scheduled") (str "Unknown") Hd) as (s3 & Ho3 & Hi3).
  destruct (nested_get d _ (str "scheduled") (str "Unknown") Hr) as (s4 & Ho4 & Hi4).
  eexists. unfold make_flight.
  rewrite Ho1; cbn [mbind result_bind rbind]; rewrite Hi1; cbn [mbind result_bind rbind].
  rewrite Ho2; cbn [mbind result_bind rbind]; rewrite Hi2; cbn [mbind result_bind rbind].
  rewrite Ho3; cbn [mbind result_bind rbind]; rewrite Hi3; cbn [mbind result_bind rbind].
  rewrite Ho4; cbn [mbind result_bind rbind]; rewrite Hi4; cbn [mbind result_bind rbind].
  reflexivity.
Qed.

Lemma flights_loop_exact (entries : list json) :
  Forall flight_entry_ok entries ->
  forall flights,
    exists new,
      flights_loop entries flights = Ok (flights ++ new) /\
      Forall2 (fun entry f => make_flight entry = Ok f) entries new.
Proof.
  induction 1 as [| entry rest Hok _ IH]; intros flights.
  - exists []. rewrite app_nil_r. split; [reflexivity | constructor].
  - destruct (make_flight_ok entry Hok) as (f & Hf).
    destruct (IH (flights ++ [f])) as (new & Hrun & Hall).
    exists (f :: new). simpl. rewrite Hf. cbn [mbind result_bind rbind].
    rewrite Hrun, <- app_assoc. split; [reflexivity |]. constructor; assumption.
Qed.

(** X9: when the first three entries of the data list are objects whose
    sub-objects are absent or objects, the fetcher reads exactly one record
    for each of them, in order: as many records as entries, up to three. *)
Theorem read_flights_exact (d : gmap (list N) json) (entries : list json) :
  d !! str "data" = Some (JArr entries) ->
  Forall flight_entry_ok (take 3 entries) ->
  exists flights,
    read_flights (JObj d) = Ok flights /\
    Forall2 (fun entry f => make_flight entry = Ok f) (take 3 entries) flights /\
    length flights = min 3 (length entries).
Proof.
  intros Hd Hok. destruct (flights_loop_exact _ Hok []) as (new & Hrun & Hall).
  exists new. split; [| split; [exact Hall |]].
  - unfold read_flights, py_get, dict_get. rewrite Hd. exact Hrun.
  - rewrite <- (Forall2_length _ _ _ Hall), length_take. reflexivity.
Qed.

Lemma flights_loop_raises (entries : list json) (entry : json) (x : exn) :
  entry ∈ entries -> make_flight entry = Raise x ->
  forall flights, exists x', flights_loop entries flights = Raise x'.
Proof.
  intros Hin Hbad. induction entries as [| first rest IH]; [inversion Hin |].
  intros flights. simpl.
  destruct (make_flight first) as [f | x'] eqn:Hf; cbn [mbind result_bind rbind]; [| eauto].
  apply elem_of_cons in Hin as [-> | Hin]; [congruence |]. apply IH, Hin.
Qed.

(** X10: the flight records are all or nothing.  When one of the first three
    entries cannot be read, reading the payload raises, whatever the other
    entries are. *)
Theorem read_flights_all_or_nothing (d : gmap (list N) json) (entries : list json)
    (entry : json) (x : exn) :
  d !! str "data" = Some (JArr entries) ->
  entry ∈ take 3 entries -> make_flight entry = Raise x ->
  exists x', read_flights (JObj d) = Raise x'.
Proof.
  intros Hd Hin Hbad. unfold read_flights, py_get, dict_get. rewrite Hd.
  cbn [mbind result_bind rbind py_slice_items].
  apply (flights_loop_raises _ _ _ Hin Hbad).
Qed.

End Records.

(** ** More on the runs of the fetchers and of the page *)

Section Runs.
Context {number : Type} `{Numeric number} `{Casing}.
#[local] Abbreviation json := (json number).
#[local] Abbreviation hotel := (@hotel number).
#[local] Abbreviation flight := (@flight number).
#[local] Abbreviation env := (@env number).
#[local] Abbreviation event := (@event number).
#[local] Abbreviation request := (@request number).
#[local] Abbreviation M := (@M number).

Lemma requests_app (l1 l2 : list event) : requests (l1 ++ l2) = requests l1 ++ requests l2.
Proof. apply omap_app. Qed.

Lemma page_app (l1 l2 : list event) : page (l1 ++ l2) = page l1 ++ page l2.
Proof. apply omap_app. Qed.

(** The log of the shape the fetchers share: the request, then the error
    notice exactly when the call failed. *)
Lemma fetch_log {A : Type} (r : request) (read : json -> result A)
    (msg : string) (empty : A) (e : env) (log : list event) :
  exists notice,
    try_except
      (response ← requests_send r;
       lift (raise_for_status response);;
       data ← lift (response_json response);
       lift (read data))
      (fun x => st (st_error [Lit msg; FExn x]);; mret empty) e log
    = (Ok (answer read empty (send e r)), log ++ EvRequest r :: notice) /\
    ((~ failed read (send e r) /\ notice = []) \/
     (failed read (send e r) /\ exists x, notice = [EvSt (st_error [Lit msg; FExn x])])).
Proof.
  destruct (fetch_run r read msg empty e log)
    as [(data & a & Hsend & Hread & Hrun) | (x & Hf & Hrun)];
    cbv zeta in Hrun; rewrite Hrun.
  - exists []. unfold answer. rewrite Hsend, Hread. split; [reflexivity |].
    left. split; [apply (failed_not_read _ _ _ Hread) | reflexivity].
  - eexists [_]. rewrite <- app_assoc. split.
    + f_equal. f_equal. unfold answer.
      inversion Hf as [| | st' | st' ? ? Hr]; try reflexivity.
      * destruct st'; reflexivity.
      * destruct st'; [rewrite Hr |]; reflexivity.
    + right. split; [exact Hf | eauto].
Qed.

Lemma get_city_coordinates_log (e : env) (city : list N) (log : list event) :
  exists notice,
    get_city_coordinates city e log
      = (Ok (answer read_coordinates (None, None) (send e (geocode_request city))),
         log ++ EvRequest (geocode_request city) :: notice) /\
    ((~ failed read_coordinates (send e (geocode_request city)) /\ notice = []) \/
     (failed read_coordinates (send e (geocode_request city)) /\
      exists x,
        notice = [EvSt (st_error [Lit "Error fetching city coordinates: "; FExn x])])).
Proof. apply fetch_log. Qed.

Lemma answer_failed {A : Type} (read : json -> result A) (empty : A)
    (resp : @response number) :
  failed read resp -> answer read empty resp = empty.
Proof.
  intros Hf. unfold answer. inversion Hf as [| | st' | st' ? ? Hr]; try reflexivity.
  - destruct st'; reflexivity.
  - destruct st'; [rewrite Hr |]; reflexivity.
Qed.

(** The log of the hotel fetcher: the geocoding request and its notice, then
    with coordinates the spatial query and its notice. *)
Lemma search_hotels_log (e : env) (city : list N) (log : list event) :
  exists hotels notice1 notice2,
    search_hotels city e log
      = (Ok hotels,
         log ++ EvRequest (geocode_request city) :: notice1
             ++ map EvRequest (spatial_requests e city) ++ notice2) /\
    requests notice1 = [] /\ requests notice2 = [] /\
    (failed read_coordinates (send e (geocode_request city)) ->
     hotels = [] /\ notice2 = [] /\
     exists x,
       notice1 = [EvSt (st_error [Lit "Error fetching city coordinates: "; FExn x])]) /\
    (spatial_requests e city = [] -> hotels = [] /\ notice2 = []) /\
    (~ failed read_coordinates (send e (geocode_request city)) -> notice1 = []).
Proof.
  destruct (get_city_coordinates_log e city log) as (notice1 & Hgeo & Hn1).
  unfold search_hotels, spatial_requests. rewrite (mbind_run _ _ _ _ _ _ Hgeo).
  assert (Hr1 : requests notice1 = []).
  { destruct Hn1 as [[_ ->] | [_ (x & ->)]]; reflexivity. }
  destruct (answer read_coordinates (None, None) (send e (geocode_request city)))
    as [[lat |] [lon |]] eqn:Hans.
  - destruct (fetch_log (overpass_request lat lon) (read_hotels city)
                "Error fetching hotel data: " [] e
                (log ++ EvRequest (geocode_request city) :: notice1))
      as (notice2 & Hrun & Hn2).
    cbv beta iota. rewrite Hrun. eexists _, notice1, notice2.
    rewrite <- app_assoc. simpl. split; [reflexivity |]. split; [exact Hr1 |].
    split; [destruct Hn2 as [[_ ->] | [_ (x & ->)]]; reflexivity |].
    split; [| split].
    + intros Hf. rewrite (answer_failed _ _ _ Hf) in Hans. discriminate.
    + discriminate.
    + intros Hnf. destruct Hn1 as [[_ ->] | [Hf _]]; [reflexivity | contradiction].
  - exists [], notice1, []. cbv beta iota. simpl. rewrite app_nil_r.
    split; [reflexivity |]. split; [exact Hr1 |]. split; [reflexivity |].
    split; [| split].
    + intros Hf. destruct Hn1 as [[Hnf _] | [_ Hx]]; [contradiction | auto].
    + auto.
    + intros Hnf. destruct Hn1 as [[_ ->] | [Hf _]]; [reflexivity | contradiction].
  - exists [], notice1, []. cbv beta iota. simpl. rewrite app_nil_r.
    split; [reflexivity |]. split; [exact Hr1 |]. split; [reflexivity |].
    split; [| split].
    + intros Hf. destruct Hn1 as [[Hnf _] | [_ Hx]]; [contradiction | auto].
    + auto.
    + intros Hnf. destruct Hn1 as [[_ ->] | [Hf _]]; [reflexivity | contradiction].
  - exists [], notice1, []. cbv beta iota. simpl. rewrite app_nil_r.
    split; [reflexivity |]. split; [exact Hr1 |]. split; [reflexivity |].
    split; [| split].
    + intros Hf. destruct Hn1 as [[Hnf _] | [_ Hx]]; [contradiction | auto].
    + auto.
    + intros Hnf. destruct Hn1 as [[_ ->] | [Hf _]]; [reflexivity | contradiction].
Qed.

Lemma requests_map (l : list request) : requests (map EvRequest l) = l.
Proof. induction l as [| r l IH]; [reflexivity |]. unfold requests in *. simpl. f_equal. exact IH. Qed.

(** X11: the hotel fetcher sends the geocoding request and then, exactly when
    the geocoder gave two coordinates, one spatial query for these
    coordinates; it sends nothing else. *)
Theorem search_hotels_requests (e : env) (city : list N) (log : list event) :
  exists hotels log',
    search_hotels city e log = (Ok hotels, log') /\
    requests log' = requests log ++ geocode_request city :: spatial_requests e city.
Proof.
  destruct (search_hotels_log e city log) as (hotels & n1 & n2 & -> & Hr1 & Hr2 & _).
  eexists _, _. split; [reflexivity |].
  rewrite requests_app. f_equal. change (EvRequest ?r :: ?l) with ([EvRequest r] ++ l).
  rewrite !requests_app, Hr1, Hr2, requests_map, app_nil_r. reflexivity.
Qed.

(** X12: after a failed geocoding call the hotel fetcher returns the empty
    list, and what it has put on the page is the geocoder's error alone:
    no spatial query is sent and no hotel error is shown.  After a
    geocoder's answer that gives no coordinates without failing, it returns
    the empty list and puts nothing on the page. *)
Theorem search_hotels_notices (e : env) (city : list N) (log : list event) :
  (failed read_coordinates (send e (geocode_request city)) ->
   exists x,
     search_hotels city e log
       = (Ok [],
          log ++ [ EvRequest (geocode_request city);
                   EvSt (st_error [Lit "Error fetching city coordinates: "; FExn x]) ])) /\
  (~ failed read_coordinates (send e (geocode_request city)) ->
   spatial_requests e city = [] ->
   search_hotels city e log = (Ok [], log ++ [EvRequest (geocode_request city)])).
Proof.
  destruct (search_hotels_log e city log)
    as (hotels & n1 & n2 & Hrun & _ & _ & Hfail & Hnone & Hquiet).
  split.
  - intros Hf. destruct (Hfail Hf) as (-> & -> & x & ->). exists x. rewrite Hrun.
    replace (spatial_requests e city) with (@nil request); [reflexivity |].
    unfold spatial_requests. rewrite (answer_failed _ _ _ Hf). reflexivity.
  - intros Hnf Hsp. destruct (Hnone Hsp) as (-> & ->). rewrite (Hquiet Hnf) in Hrun.
    rewrite Hrun, Hsp. reflexivity.
Qed.

(** Writing one hotel or one flight puts lines on the page, sends nothing
    and returns. *)
Lemma write_hotel_run (h : hotel) (e : env) (log : list event) :
  exists lines, write_hotel h e log = (Ok tt, log ++ lines) /\ requests lines = [].
Proof.
  unfold write_hotel, when, st, emit, mbind, mret, M_bind, M_ret.
  destruct (negb (py_eq_str (stars h) _)), (negb (py_eq_str (phone h) _)),
    (negb (py_eq_str (website h) _));
    rewrite <- !app_assoc; eexists; (split; [reflexivity | reflexivity]).
Qed.

Lemma write_flight_run (f : flight) (e : env) (log : list event) :
  exists lines, write_flight f e log = (Ok tt, log ++ lines) /\ requests lines = [].
Proof.
  unfold write_flight, st, emit, mbind, mret, M_bind, M_ret.
  rewrite <- !app_assoc. eexists. split; reflexivity.
Qed.

Lemma for_each_run {A : Type} (body : A -> M unit) (l : list A) (e : env) :
  (forall a log, exists lines, body a e log = (Ok tt, log ++ lines) /\ requests lines = []) ->
  forall log,
    exists lines, for_each body l e log = (Ok tt, log ++ lines) /\ requests lines = [].
Proof.
  intros Hbody. induction l as [| a l IH]; intros log.
  - exists []. simpl. rewrite app_nil_r. split; reflexivity.
  - destruct (Hbody a log) as (l1 & H1 & Hr1).
    destruct (IH (log ++ l1)) as (l2 & H2 & Hr2).
    exists (l1 ++ l2). simpl. rewrite (mbind_run _ _ _ _ _ _ H1), H2, app_assoc.
    split; [reflexivity |]. rewrite requests_app, Hr1, Hr2. reflexivity.
Qed.

(** The hotel section returns; its requests are those of the hotel
    fetcher. *)
Lemma hotel_section_run (e : env) (city : list N) (log : list event) :
  exists extra,
    hotel_section city e log = (Ok tt, log ++ extra) /\
    requests extra = geocode_request city :: spatial_requests e city.
Proof.
  unfold hotel_section. rewrite (mbind_run _ _ _ _ _ _ (st_run _ _ _)).
  destruct (search_hotels_log e city (log ++ [EvSt (st_subheader HotelOptions)]))
    as (hotels & n1 & n2 & Hrun & Hr1 & Hr2 & _).
  rewrite (mbind_run _ _ _ _ _ _ Hrun).
  assert (Hreq : forall lines,
            requests lines = [] ->
            requests ([EvSt (st_subheader HotelOptions)]
                      ++ ([EvRequest (geocode_request city)] ++ n1
                          ++ map EvRequest (spatial_requests e city) ++ n2) ++ lines)
            = geocode_request city :: spatial_requests e city).
  { intros lines Hl.
    rewrite !requests_app, Hr1, Hr2, requests_map, Hl. simpl.
    rewrite !app_nil_r. reflexivity. }
  destruct hotels as [| h hotels].
  - rewrite st_run. eexists. rewrite <- !app_assoc.
    split; [reflexivity |]. apply (Hreq [EvSt (st_warning hotel_warning)]). reflexivity.
  - destruct (for_each_run write_hotel (h :: hotels) e (fun a l => write_hotel_run a e l)
                ((log ++ [EvSt (st_subheader HotelOptions)])
                 ++ EvRequest (geocode_request city) :: n1
                 ++ map EvRequest (spatial_requests e city) ++ n2)) as (lines & Hlines & Hl).
    rewrite Hlines. eexists. rewrite <- !app_assoc.
    split; [reflexivity |]. apply (Hreq lines Hl).
Qed.

Lemma search_flights_log (e : env) (origin destination : list N) (log : list event) :
  exists flights notice,
    search_flights origin destination e log
      = (Ok flights,
         log ++ EvRequest (flights_request (getenv e "AVIATIONSTACK_API_KEY")
                             origin destination) :: notice) /\
    requests notice = [].
Proof.
  destruct (fetch_log (flights_request (getenv e "AVIATIONSTACK_API_KEY") origin destination)
              read_flights "Error fetching flight data: " [] e log)
    as (notice & Hrun & Hn).
  eexists _, notice. split; [exact Hrun |].
  destruct Hn as [[_ ->] | [_ (x & ->)]]; reflexivity.
Qed.

(** The flight section returns; it queries the two airport codes. *)
Lemma flight_section_run (e : env) (city origin_city : list N) (log : list event) :
  exists extra,
    flight_section city origin_city e log = (Ok tt, log ++ extra) /\
    requests extra
      = [flights_request (getenv e "AVIATIONSTACK_API_KEY")
           (get_airport_code origin_city) (get_airport_code city)].
Proof.
  unfold flight_section. rewrite (mbind_run _ _ _ _ _ _ (st_run _ _ _)). cbv zeta.
  destruct (search_flights_log e (get_airport_code origin_city) (get_airport_code city)
              (log ++ [EvSt (st_subheader FlightOptions)]))
    as (flights & notice & Hrun & Hr).
  rewrite (mbind_run _ _ _ _ _ _ Hrun).
  set (r := flights_request _ _ _) in *.
  assert (Hreq : forall lines,
            requests lines = [] ->
            requests ([EvSt (st_subheader FlightOptions)]
                      ++ ([EvRequest r] ++ notice) ++ lines)
            = [r]).
  { intros lines Hl. rewrite !requests_app, Hr, Hl. reflexivity. }
  destruct flights as [| f flights].
  - rewrite st_run. eexists. rewrite <- !app_assoc.
    split; [reflexivity |]. apply (Hreq [EvSt (st_warning flight_warning)]). reflexivity.
  - destruct (for_each_run write_flight (f :: flights) e (fun a l => write_flight_run a e l)
                ((log ++ [EvSt (st_subheader FlightOptions)]) ++ EvRequest r :: notice))
      as (lines & Hlines & Hl).
    rewrite Hlines. eexists. rewrite <- !app_assoc.
    split; [reflexivity |]. apply (Hreq lines Hl).
Qed.

(** The weather section sends nothing. *)
Lemma weather_section_quiet (weather_data : json) (e : env) (log : list event) :
  exists r extra,
    weather_section weather_data e log = (r, log ++ extra) /\ requests extra = [].
Proof.
  unfold weather_section, when. destruct (py_bool weather_data).
  - unfold st, emit, lift, mbind, mret, M_bind, M_ret.
    repeat match goal with
           | |- context [match ?t with Ok _ => _ | Raise _ => _ end] => destruct t
           end;
      rewrite <- ?app_assoc; eexists _, _; (split; [reflexivity | reflexivity]).
  - eexists _, []. rewrite app_nil_r. split; reflexivity.
Qed.

Lemma weather_section_lines (d : gmap (list N) json) (e : env) (log : list event) :
  weather_well_formed (JObj d) ->
  weather_section (JObj d) e log
    = (Ok tt,
       log ++ [ EvSt (st_subheader WeatherInformation);
                EvSt (st_write [Lit "Current temperature: "; FVal (weather_temp d); Lit "C"]);
                EvSt (st_write [Lit "Weather conditions: "; FVal (weather_description d)]) ]).
Proof.
  intros (Hne & Hmain & Hweather).
  unfold weather_section, when, weather_temp, weather_description.
  assert (Hb : py_bool (JObj d) = true).
  { simpl. rewrite bool_decide_false by exact Hne. reflexivity. }
  rewrite Hb. unfold st, emit, lift, mbind, mret, M_bind, M_ret, py_get, dict_get.
  destruct Hmain as [Hm | (sub & Hm)]; rewrite Hm;
    destruct Hweather as [Hw | (first & others & Hw)]; rewrite Hw; simpl;
    unfold dict_get; rewrite ?lookup_empty, <- ?app_assoc; reflexivity.
Qed.

(** X16: a well-formed weather payload is shown as the heading and two
    lines, and the section does not raise; a temperature or a description
    that the payload lacks is shown as [None]. *)
Theorem weather_section_shown (d : gmap (list N) json) (e : env) (log : list event) :
  weather_well_formed (JObj d) ->
  weather_section (JObj d) e log
    = (Ok tt,
       log ++ [ EvSt (st_subheader WeatherInformation);
                EvSt (st_write [Lit "Current temperature: "; FVal (weather_temp d); Lit "C"]);
                EvSt (st_write [Lit "Weather conditions: "; FVal (weather_description d)]) ]) /\
  (field_absent d (str "main") (str "temp") -> weather_temp d = JNull) /\
  (d !! str "weather" = None -> weather_description d = JNull).
Proof.
  intros Hwf. split; [apply weather_section_lines, Hwf |]. split.
  - unfold weather_temp, dict_get. intros [Hm | (sub & Hm & Ht)]; rewrite Hm; [reflexivity |].
    rewrite Ht. reflexivity.
  - unfold weather_description. intros ->. reflexivity.
Qed.

Lemma get_weather_data_full (e : env) (city : list N) (log : list event) :
  exists weather_data notice,
    get_weather_data city e log
      = (Ok weather_data,
         log ++ EvRequest (weather_request (getenv e "OPENWEATHER_API_KEY") city) :: notice) /\
    requests notice = [] /\
    weather_data
      = match send e (weather_request (getenv e "OPENWEATHER_API_KEY") city) with
        | Response true (Some data) => data
        | _ => JObj ∅
        end.
Proof.
  destruct (get_weather_data_run e city log) as [(data & Hsend & ->) | (x & Hf & ->)].
  - cbv zeta in Hsend. eexists _, []. rewrite Hsend. repeat split.
  - eexists _, [_]. rewrite <- app_assoc. split; [reflexivity |]. split; [reflexivity |].
    cbv zeta in Hf. inversion Hf as [| | st' | st' ? ? Hr]; try reflexivity.
    + destruct st'; reflexivity.
    + discriminate.
Qed.

Lemma generate_trip_plan_returns (e : env) (city : list N) (days : Z) (month : list N)
    (log : list event) (text : list N) :
  invoke e (trip_messages city days month) = Some text ->
  generate_trip_plan city days month e log
    = (Ok text, log ++ [EvInvoke (trip_messages city days month)]).
Proof.
  intros Hinv. unfold generate_trip_plan, llm_invoke, mbind, mret, M_bind, M_ret.
  rewrite Hinv. reflexivity.
Qed.

Lemma requests_st (c : st_call) (log : list event) :
  requests (log ++ [EvSt c]) = requests log.
Proof. rewrite requests_app. simpl. apply app_nil_r. Qed.

(** The three ways a run of the page can go once the button is pressed: the
    weather section raises; the model fails; or the run completes. *)
Lemma main_cases (e : env) (i : inputs) (log : list event) :
  plan_my_trip i = true ->
  let city := destination_city i in
  let messages := trip_messages city (number_of_days i) (month_of_travel i) in
  let weather_data :=
    answer Ok (JObj ∅) (send e (weather_request (getenv e "OPENWEATHER_API_KEY") city)) in
  exists log0 r log1,
    weather_section weather_data e log0 = (r, log1) /\
    match r, invoke e messages with
    | Raise x, _ => main i e log = (Raise x, log1)
    | Ok _, None => main i e log = (Raise InvokeError, log1 ++ [EvInvoke messages])
    | Ok _, Some text =>
        exists extra,
          main i e log
            = (Ok tt,
               log1 ++ [ EvInvoke messages; EvSt (st_subheader YourTripPlan);
                         EvSt (st_write [FStr text]) ] ++ extra) /\
          requests log1
            = requests log ++ [weather_request (getenv e "OPENWEATHER_API_KEY") city] /\
          requests extra
            = geocode_request city :: spatial_requests e city
              ++ [flights_request (getenv e "AVIATIONSTACK_API_KEY")
                    (get_airport_code (departure_city i)) (get_airport_code city)]
    end.
Proof.
  intros Hgo city messages weather_data. unfold main. rewrite Hgo. unfold when.
  rewrite (mbind_run _ _ _ _ _ _ (st_run _ _ _)).
  rewrite (mbind_run _ _ _ _ _ _ (st_run _ _ _)). cbv zeta. fold city.
  set (la := (log ++ _) ++ _).
  assert (Hla : requests la = requests log) by (unfold la; rewrite !requests_st; reflexivity).
  destruct (get_weather_data_full e city la) as (wd & notice & Hw & Hn & Hwd).
  change (wd = weather_data) in Hwd. subst wd.
  rewrite (mbind_run _ _ _ _ _ _ Hw).
  set (lb := la ++ _) in *.
  assert (Hlb : requests lb
                = requests log ++ [weather_request (getenv e "OPENWEATHER_API_KEY") city]).
  { unfold lb. change (EvRequest ?r :: ?l) with ([EvRequest r] ++ l).
    rewrite !requests_app, Hla, Hn. simpl. reflexivity. }
  destruct (weather_section_quiet weather_data e lb) as (r & extra & Hs & Hextra).
  exists lb, r, (lb ++ extra). split; [exact Hs |].
  destruct r as [[] | x].
  - rewrite (mbind_run _ _ _ _ _ _ Hs). fold messages.
    destruct (invoke e messages) as [text |] eqn:Hinv.
    + rewrite (mbind_run _ _ _ _ _ _ (generate_trip_plan_returns _ _ _ _ _ _ Hinv)).
      rewrite (mbind_run _ _ _ _ _ _ (st_run _ _ _)).
      rewrite (mbind_run _ _ _ _ _ _ (st_run _ _ _)).
      set (lc := (((lb ++ extra) ++ _) ++ _) ++ _).
      destruct (hotel_section_run e city lc) as (eh & Hh & Heh).
      rewrite (mbind_run _ _ _ _ _ _ Hh).
      destruct (flight_section_run e city (departure_city i) (lc ++ eh)) as (ef & Hf & Hef).
      exists (eh ++ ef). split; [| split].
      * rewrite Hf. unfold lc. rewrite <- !app_assoc. reflexivity.
      * rewrite requests_app, Hlb, Hextra, app_nil_r. reflexivity.
      * rewrite requests_app, Heh, Hef. reflexivity.
    + apply mbind_raise. apply generate_trip_plan_raises, Hinv.
  - apply mbind_raise. exact Hs.
Qed.

(** X13: until the button is pressed the page shows its title and its
    introduction and nothing else happens: no request is sent and the model
    is not called. *)
Theorem main_idle (e : env) (i : inputs) (log : list event) :
  plan_my_trip i = false ->
  main i e log
    = (Ok tt,
       log ++ [ EvSt (st_title "AI Travel Planner");
                EvSt (st_write [Lit "Plan your perfect trip with AI-powered recommendations and real-time data!"]) ]).
Proof.
  intros Hidle. unfold main. rewrite Hidle. unfold when, st, emit, mbind, mret, M_bind, M_ret.
  rewrite <- app_assoc. reflexivity.
Qed.

Lemma main_weather_raises (e : env) (i : inputs) (log : list event) (data : json)
    (x : exn) :
  plan_my_trip i = true ->
  send e (weather_request (getenv e "OPENWEATHER_API_KEY") (destination_city i))
    = Response true (Some data) ->
  py_bool data = true ->
  (temp ← (main ← py_get data (str "main") (JObj ∅); py_get main (str "temp") JNull);
   weather ← py_get data (str "weather") (JArr [JObj ∅]);
   first ← py_first weather;
   py_get first (str "description") JNull) = Raise x ->
  main i e log
    = (Raise x,
       log ++ [ EvSt (st_title "AI Travel Planner");
                EvSt (st_write [Lit "Plan your perfect trip with AI-powered recommendations and real-time data!"]);
                EvRequest (weather_request (getenv e "OPENWEATHER_API_KEY") (destination_city i));
                EvSt (st_subheader WeatherInformation) ]).
Proof.
  intros Hgo Hsend Hb Hraise. unfold main. rewrite Hgo.
  unfold when, get_weather_data, weather_section, os_getenv, try_except, requests_send.
  unfold when, st, emit, lift, mbind, mret, M_bind, M_ret.
  rewrite Hsend. simpl. rewrite Hb.
  unfold mbind, result_bind, rbind in Hraise.
  destruct (py_get data (str "main") (JObj ∅)) as [m |]; simpl.
  - destruct (py_get m (str "temp") JNull) as [t |]; simpl.
    + destruct (py_get data (str "weather") (JArr [JObj ∅])) as [w |]; simpl.
      * destruct (py_first w) as [f |]; simpl.
        -- destruct (py_get f (str "description") JNull); [discriminate |].
           injection Hraise as ->. rewrite <- !app_assoc. reflexivity.
        -- injection Hraise as ->. rewrite <- !app_assoc. reflexivity.
      * injection Hraise as ->. rewrite <- !app_assoc. reflexivity.
    + injection Hraise as ->. rewrite <- !app_assoc. reflexivity.
  - injection Hraise as ->. rewrite <- !app_assoc. reflexivity.
Qed.

(** X14: a weather answer that is not empty and is not an object (a list, a
    string, a number) is not caught by the fetcher: the run raises
    [AttributeError] in the weather section, right after its heading, and
    neither the model nor any other service is called. *)
Theorem main_weather_not_object (e : env) (i : inputs) (log : list event) (data : json) :
  plan_my_trip i = true ->
  send e (weather_request (getenv e "OPENWEATHER_API_KEY") (destination_city i))
    = Response true (Some data) ->
  py_bool data = true ->
  ~ is_object data ->
  main i e log
    = (Raise AttributeError,
       log ++ [ EvSt (st_title "AI Travel Planner");
                EvSt (st_write [Lit "Plan your perfect trip with AI-powered recommendations and real-time data!"]);
                EvRequest (weather_request (getenv e "OPENWEATHER_API_KEY") (destination_city i));
                EvSt (st_subheader WeatherInformation) ]).
Proof.
  intros Hgo Hsend Hb Hobj. apply (main_weather_raises e i log data); try assumption.
  destruct data; try reflexivity. destruct Hobj. exact I.
Qed.

(** X15: a weather object whose "weather" list is empty makes the run raise
    [IndexError] in the weather section, right after its heading. *)
Theorem main_weather_empty_list (e : env) (i : inputs) (log : list event)
    (d : gmap (list N) json) :
  plan_my_trip i = true ->
  send e (weather_request (getenv e "OPENWEATHER_API_KEY") (destination_city i))
    = Response true (Some (JObj d)) ->
  absent_or_object d (str "main") ->
  d !! str "weather" = Some (JArr []) ->
  main i e log
    = (Raise IndexError,
       log ++ [ EvSt (st_title "AI Travel Planner");
                EvSt (st_write [Lit "Plan your perfect trip with AI-powered recommendations and real-time data!"]);
                EvRequest (weather_request (getenv e "OPENWEATHER_API_KEY") (destination_city i));
                EvSt (st_subheader WeatherInformation) ]).
Proof.
  intros Hgo Hsend Hmain Hw. apply (main_weather_raises e i log (JObj d)); try assumption.
  - simpl. rewrite bool_decide_false; [reflexivity |].
    intros ->. rewrite lookup_empty in Hw. discriminate.
  - unfold py_get, dict_get. rewrite Hw.
    destruct Hmain as [Hm | (sub & Hm)]; rewrite Hm; reflexivity.
Qed.

(** X17: once the button is pressed, when the weather answer is empty,
    failed or well formed and the model returns a text, the run completes:
    the hotel and flight sections never raise.  The text is on the page
    under its heading. *)
Theorem main_returns (e : env) (i : inputs) (log : list event) (text : list N) :
  plan_my_trip i = true ->
  (let weather_data :=
     answer Ok (JObj ∅)
       (send e (weather_request (getenv e "OPENWEATHER_API_KEY") (destination_city i))) in
   py_bool weather_data = false \/ weather_well_formed weather_data) ->
  invoke e (trip_messages (destination_city i) (number_of_days i) (month_of_travel i))
    = Some text ->
  exists before after,
    main i e log
      = (Ok tt,
         before ++ [EvSt (st_subheader YourTripPlan); EvSt (st_write [FStr text])] ++ after).
Proof.
  intros Hgo Hweather Hinv.
  destruct (main_cases e i log Hgo) as (log0 & r & log1 & Hs & Hcase).
  cbv zeta in *. rewrite Hinv in Hcase.
  assert (Hr : exists u, r = Ok u).
  { destruct Hweather as [Hb | Hwf].
    - rewrite (weather_section_skipped _ _ _ Hb) in Hs. injection Hs as <- _. eauto.
    - destruct (answer Ok (JObj ∅) _) as [| | | | | d]; try contradiction.
      rewrite (weather_section_lines _ _ _ Hwf) in Hs. injection Hs as <- _. eauto. }
  destruct Hr as (u & ->). destruct Hcase as (extra & Hrun & _).
  exists (log1 ++ [EvInvoke (trip_messages (destination_city i) (number_of_days i)
                              (month_of_travel i))]), extra.
  rewrite Hrun, <- !app_assoc. reflexivity.
Qed.

(** X18: a run that completes has sent, in this order, the weather request,
    the geocoding request, the spatial query when the geocoder gave
    coordinates, and one flights request from the code of the departure city
    to the code of the destination; nothing else. *)
Theorem main_requests (e : env) (i : inputs) (log log' : list event) :
  plan_my_trip i = true ->
  main i e log = (Ok tt, log') ->
  requests log'
    = requests log
      ++ [ weather_request (getenv e "OPENWEATHER_API_KEY") (destination_city i);
           geocode_request (destination_city i) ]
      ++ spatial_requests e (destination_city i)
      ++ [ flights_request (getenv e "AVIATIONSTACK_API_KEY")
             (get_airport_code (departure_city i))
             (get_airport_code (destination_city i)) ].
Proof.
  intros Hgo Hrun.
  destruct (main_cases e i log Hgo) as (log0 & r & log1 & Hs & Hcase). cbv zeta in *.
  destruct r as [u | x]; [| rewrite Hcase in Hrun; discriminate].
  destruct (invoke e _) as [text |]; [| rewrite Hcase in Hrun; discriminate].
  destruct Hcase as (extra & Hmain & Hr1 & Hr2).
  rewrite Hmain in Hrun. injection Hrun as <-.
  rewrite requests_app, Hr1.
  change (requests (_ :: _ :: _ :: extra)) with (requests extra).
  rewrite Hr2, <- !app_assoc. reflexivity.
Qed.

End Runs.

(** ** The further properties in concrete worlds *)

(** In a world whose geocoder finds Tokyo at "35", "139". *)
Lemma get_city_coordinates_first_match_witness :
  get_city_coordinates (str "Tokyo") full_world []
    = (Ok (Some 35%Z, Some 139%Z), [] ++ [EvRequest (geocode_request (str "Tokyo"))]).
Proof.
  apply (get_city_coordinates_first_match full_world (str "Tokyo") [] tokyo_fields []
           (JStr (str "35")) (JStr (str "139"))); vm_compute; reflexivity.
Defined.

(** In a world whose geocoder's first match has a longitude only. *)
Lemma get_city_coordinates_missing_key_witness :
  get_city_coordinates (str "Tokyo") no_lat_world []
    = (Ok (None, None),
       [] ++ [ EvRequest (geocode_request (str "Tokyo"));
               EvSt (st_error [Lit "Error fetching city coordinates: "; FExn KeyError]) ]).
Proof.
  apply (get_city_coordinates_missing_key no_lat_world (str "Tokyo") [] no_lat_fields []);
    vm_compute; reflexivity.
Defined.

(** At a node that has a type and nothing else. *)
Lemma make_hotel_defaults_witness :
  exists h,
    built_from (str "Tokyo") (JObj bare_node) h /\
    defaulted bare_node (str "tags") (str "name") (str "Unnamed Hotel") (name h) /\
    defaulted bare_node (str "tags") (str "addr:street") (str "Street not available")
      (street (hotel_address h)) /\
    defaulted bare_node (str "tags") (str "addr:city") (str "Tokyo")
      (addr_city (hotel_address h)) /\
    defaulted bare_node (str "tags") (str "addr:country") (str "Country not available")
      (country (hotel_address h)) /\
    defaulted bare_node (str "tags") (str "stars") (str "N/A") (stars h) /\
    defaulted bare_node (str "tags") (str "phone") (str "Phone not available") (phone h) /\
    defaulted bare_node (str "tags") (str "website") (str "Website not available")
      (website h) /\
    lat (hotel_coordinates h) = dict_get bare_node (str "lat") JNull /\
    lon (hotel_coordinates h) = dict_get bare_node (str "lon") JNull.
Proof. apply make_hotel_defaults. left. vm_compute. reflexivity. Defined.

(** At the payload with two ways and four nodes. *)
Lemma read_hotels_exact_witness :
  exists hotels,
    read_hotels (str "Tokyo") (JObj (elements_fields mixed_elements)) = Ok hotels /\
    Forall2 (built_from (str "Tokyo")) (take 3 (candidates mixed_elements)) hotels.
Proof.
  apply read_hotels_exact.
  - vm_compute. reflexivity.
  - simpl. repeat (constructor; [right; eexists; vm_compute; reflexivity |]). constructor.
Defined.

(** At a payload whose second element is null, after one node. *)
Lemma read_hotels_all_or_nothing_witness :
  read_hotels (str "Tokyo")
    (JObj (elements_fields ([node_element "Inn"] ++ JNull :: [node_element "Lodge"])))
  = Raise AttributeError.
Proof.
  eapply (read_hotels_all_or_nothing (str "Tokyo") _ [node_element "Inn"]
            [node_element "Lodge"] JNull).
  - vm_compute. reflexivity.
  - simpl. lia.
  - vm_compute. reflexivity.
  - simpl. lia.
  - intros [].
Defined.

(** At a data list of four readable entries. *)
Lemma read_flights_exact_witness :
  let entries := [ numbered_flight "NH211"; numbered_flight "JL44"; obj [];
                   numbered_flight "BA5" ] in
  exists flights,
    read_flights (JObj (data_fields entries)) = Ok flights /\
    Forall2 (fun entry f => make_flight entry = Ok f) (take 3 entries) flights /\
    length flights = min 3 (length entries).
Proof.
  cbv zeta. apply read_flights_exact.
  - vm_compute. reflexivity.
  - simpl. unfold numbered_flight, obj.
    repeat (constructor;
            [repeat split;
             first [left; vm_compute; reflexivity | right; eexists; vm_compute; reflexivity] |]).
    constructor.
Defined.

(** At a data list whose second entry has a null airline. *)
Lemma read_flights_all_or_nothing_witness :
  exists x,
    read_flights (JObj (data_fields [numbered_flight "NH211"; null_airline])) = Raise x.
Proof.
  apply (read_flights_all_or_nothing _ [numbered_flight "NH211"; null_airline]
           null_airline AttributeError).
  - vm_compute. reflexivity.
  - simpl. right. left.
  - vm_compute. reflexivity.
Defined.

(** In a world whose geocoder is unreachable, and in one whose geocoder finds
    nothing. *)
Lemma search_hotels_notices_witness :
  (exists x,
      search_hotels (str "Tokyo") unreachable_geocoder_world []
        = (Ok [],
           [] ++ [ EvRequest (geocode_request (str "Tokyo"));
                   EvSt (st_error [Lit "Error fetching city coordinates: "; FExn x]) ])) /\
  search_hotels (str "Atlantis") no_match_world []
    = (Ok [], [] ++ [EvRequest (geocode_request (str "Atlantis"))]).
Proof.
  split.
  - apply (proj1 (search_hotels_notices unreachable_geocoder_world (str "Tokyo") [])).
    vm_compute. constructor.
  - apply (proj2 (search_hotels_notices no_match_world (str "Atlantis") [])).
    + intros Hf. vm_compute in Hf. inversion Hf. discriminate.
    + vm_compute. reflexivity.
Defined.

(** In the scenario before the button is pressed. *)
Lemma main_idle_witness :
  main idle_inputs full_world []
    = (Ok tt,
       [] ++ [ EvSt (st_title "AI Travel Planner");
               EvSt (st_write [Lit "Plan your perfect trip with AI-powered recommendations and real-time data!"]) ]).
Proof. apply (main_idle full_world idle_inputs []). reflexivity. Defined.

(** In a world whose weather service answers with a list. *)
Lemma main_weather_not_object_witness :
  main tokyo_inputs list_weather_world []
    = (Raise AttributeError,
       [] ++ [ EvSt (st_title "AI Travel Planner");
               EvSt (st_write [Lit "Plan your perfect trip with AI-powered recommendations and real-time data!"]);
               EvRequest (weather_request (getenv list_weather_world "OPENWEATHER_API_KEY")
                            (destination_city tokyo_inputs));
               EvSt (st_subheader WeatherInformation) ]).
Proof.
  apply (main_weather_not_object list_weather_world tokyo_inputs [] (JArr [JNum 1%Z])).
  - reflexivity.
  - reflexivity.
  - reflexivity.
  - intros [].
Defined.

(** In a world whose weather service answers with no conditions. *)
Lemma main_weather_empty_list_witness :
  main tokyo_inputs no_conditions_world []
    = (Raise IndexError,
       [] ++ [ EvSt (st_title "AI Travel Planner");
               EvSt (st_write [Lit "Plan your perfect trip with AI-powered recommendations and real-time data!"]);
               EvRequest (weather_request (getenv no_conditions_world "OPENWEATHER_API_KEY")
                            (destination_city tokyo_inputs));
               EvSt (st_subheader WeatherInformation) ]).
Proof.
  apply (main_weather_empty_list no_conditions_world tokyo_inputs [] no_conditions_fields).
  - reflexivity.
  - reflexivity.
  - left. vm_compute. reflexivity.
  - vm_compute. reflexivity.
Defined.

Lemma fine_weather_well_formed : weather_well_formed (JObj fine_weather_fields).
Proof.
  split; [| split].
  - intros Heq. apply (f_equal (fun m => m !! str "main")) in Heq.
    vm_compute in Heq. discriminate.
  - right. eexists. vm_compute. reflexivity.
  - right. eexists _, _. vm_compute. reflexivity.
Qed.

(** At the payload with a temperature and a description. *)
Lemma weather_section_shown_witness :
  weather_section (JObj fine_weather_fields) full_world []
    = (Ok tt,
       [] ++ [ EvSt (st_subheader WeatherInformation);
               EvSt (st_write [ Lit "Current temperature: ";
                                FVal (weather_temp fine_weather_fields); Lit "C" ]);
               EvSt (st_write [ Lit "Weather conditions: ";
                                FVal (weather_description fine_weather_fields) ]) ]).
Proof.
  apply (weather_section_shown fine_weather_fields full_world []).
  exact fine_weather_well_formed.
Defined.

(** In the world where every service answers. *)
Lemma main_returns_witness :
  exists before after,
    main tokyo_inputs full_world []
      = (Ok tt,
         before ++ [EvSt (st_subheader YourTripPlan); EvSt (st_write [FStr (str "Day 1")])]
                ++ after).
Proof.
  apply (main_returns full_world tokyo_inputs [] (str "Day 1")).
  - reflexivity.
  - right. exact fine_weather_well_formed.
  - reflexivity.
Defined.

(** In the world where every service answers. *)
Lemma main_requests_witness :
  requests (snd (main tokyo_inputs full_world []))
    = requests []
      ++ [ weather_request (getenv full_world "OPENWEATHER_API_KEY")
             (destination_city tokyo_inputs);
           geocode_request (destination_city tokyo_inputs) ]
      ++ spatial_requests full_world (destination_city tokyo_inputs)
      ++ [ flights_request (getenv full_world "AVIATIONSTACK_API_KEY")
             (get_airport_code (departure_city tokyo_inputs))
             (get_airport_code (destination_city tokyo_inputs)) ].
Proof.
  apply (main_requests full_world tokyo_inputs []).
  - reflexivity.
  - vm_compute. reflexivity.
Defined.
